(** * Genre controller of the LocalLibrary catalog

    A shallow embedding of [controllers/genreController.js]: the eight
    request handlers for the Genre resource, the validation chain in front
    of the two POST handlers that take a name, and the document-store
    operations the handlers call.

    Conventions of the embedding.
    - A JavaScript string is a [string]; each character stands for one code
      unit below 256.
    - A collection is the list of its documents in natural (insertion)
      order.
    - A handler is a computation over the database that logs, in order,
      every query it issues and every call it makes on [res] or [next].
      Reading the log tells what was rendered, where the client was
      redirected, which error reached the error-handling stage and which
      queries ran.
    - [Promise.all] over two reads is run left to right: both are reads, so
      the order cannot be observed. *)

From Stdlib Require Import Ascii Bool Arith Lia.
From stdpp Require Import base list sorting strings.

Local Open Scope list_scope.

(** ** Strings: the validator.js functions used by the chain *)

Module Validator.

(** The characters below 256 that the regular expression [\s] accepts:
    tab, line feed, vertical tab, form feed, carriage return, space and
    no-break space. *)
Definition is_space (c : ascii) : bool :=
  let n := nat_of_ascii c in
  (Nat.leb 9 n && Nat.leb n 13) || Nat.eqb n 32 || Nat.eqb n 160.

(** [ltrim(str)]: drop the leading run of white space. *)
Fixpoint ltrim (s : string) : string :=
  match s with
  | EmptyString => EmptyString
  | String c s' => if is_space c then ltrim s' else s
  end.

(** [rtrim(str)]: drop the trailing run of white space. *)
Fixpoint rtrim (s : string) : string :=
  match s with
  | EmptyString => EmptyString
  | String c s' =>
      match rtrim s' with
      | EmptyString => if is_space c then EmptyString else String c EmptyString
      | r => String c r
      end
  end.

(** [trim(str) = rtrim(ltrim(str))]. *)
Definition trim (s : string) : string := rtrim (ltrim s).

(** [isLength(str, { min })]: below 256 there are no surrogate pairs and no
    variation selectors, so the length counted is the number of code
    units. *)
Definition isLength (min : nat) (s : string) : bool :=
  Nat.leb min (String.length s).

(** [str.replace(/c/g, r)]: every occurrence of the character [c]
    becomes the string [r]. *)
Fixpoint replace (c : ascii) (r : string) (s : string) : string :=
  match s with
  | EmptyString => EmptyString
  | String a s' =>
      if Ascii.eqb a c then r +:+ replace c r s' else String a (replace c r s')
  end.

Definition dquote : ascii := ascii_of_nat 34.
Definition squote : ascii := ascii_of_nat 39.
Definition backslash : ascii := ascii_of_nat 92.
Definition backquote : ascii := ascii_of_nat 96.

(** [escape(str)]: the eight replacements, in the library's order. *)
Definition escape (s : string) : string :=
  replace backquote "&#96;"
    (replace backslash "&#x5C;"
      (replace "/" "&#x2F;"
        (replace ">" "&gt;"
          (replace "<" "&lt;"
            (replace squote "&#x27;"
              (replace dquote "&quot;"
                (replace "&" "&amp;" s))))))).

End Validator.

(** ** Data model *)

(** A Genre document. *)
Record Genre := mkGenre { _id : string; name : string }.

(** Modelled from the spec: [models/genre.js] is not part of the sources; the
    virtual [url] of a Genre is ["/catalog/genre/"] followed by its
    identifier. *)
Definition url (g : Genre) : string := "/catalog/genre/" +:+ _id g.

(** Modelled from the spec: [models/book.js] is not part of the sources; a
    Book has a title, a summary and references zero or more Genres by
    identifier. *)
Record Book := mkBook {
  book_id : string;
  title : string;
  summary : string;
  genre : list string
}.

(** A Book read with the projection ["title summary"]. *)
Record BookSummary := mkBookSummary {
  bs_id : string;
  bs_title : string;
  bs_summary : string
}.

(** A Book read with [.populate("genre")]: references resolved to documents. *)
Record PopulatedBook := mkPopulatedBook {
  pb_id : string;
  pb_title : string;
  pb_summary : string;
  pb_genre : list Genre
}.

Record db := mkDb { genres : list Genre; books : list Book }.

(** The unique index on [_id]: no two Genres share an identifier. *)
Definition unique_ids (d : db) : Prop := List.NoDup (List.map _id (genres d)).

(** An [Error] object: its message and the [status] property, when set. *)
Record error := mkError { message : string; status : option nat }.

(** One entry of [errors.array()]. *)
Record ValidationError := mkValidationError { field : string; msg : string }.

(** The request fields the handlers read. *)
Record request := mkRequest {
  params_id : string;
  body_name : string;
  body_genreid : string
}.

(** Values placed in the object handed to [res.render]. *)
Inductive value :=
  | VString (s : string)
  | VNull
  | VGenre (g : Genre)
  | VGenreList (l : list Genre)
  | VBookSummaries (l : list BookSummary)
  | VBooks (l : list PopulatedBook)
  | VErrors (l : list ValidationError).

Definition locals := list (string * value).

(** The queries a handler can issue. *)
Inductive query :=
  | QGenreFindSortByName
  | QGenreFindById (id : string)
  | QGenreFindOneByName (nm : string)
  | QGenreSave (g : Genre)
  | QGenreFindByIdAndDelete (id : string)
  | QGenreFindByIdAndUpdate (id : string) (g : Genre)
  | QBookFindByGenre (id : string).

(** What a handler does that can be observed from outside. *)
Inductive event :=
  | Query (q : query)
  | ResRender (view : string) (l : locals)
  | ResRedirect (target : string)
  | Next (e : error).

Definition is_query (e : event) : bool :=
  match e with Query _ => true | _ => false end.

(** The queries of a log, and the calls on [res] and [next] of a log. *)
Definition queries (t : list event) : list event := List.filter is_query t.
Definition responses (t : list event) : list event :=
  List.filter (fun e => negb (is_query e)) t.

(** Express defaults: [res.render] answers 200, [res.redirect] answers 302;
    an error handed to [next] carries its own status, if any. *)
Definition http_status (e : event) : option nat :=
  match e with
  | Query _ => None
  | ResRender _ _ => Some 200
  | ResRedirect _ => Some 302
  | Next err => status err
  end.

(** ** Handler computations *)

Inductive outcome (A : Type) :=
  | Ret (a : A)
  | Throw (e : error).
Arguments Ret {A} a.
Arguments Throw {A} e.

(** A computation reads and writes the database, appends to the log, and
    either returns or throws. *)
Definition M (A : Type) : Type := db -> outcome A * db * list event.

Definition ret {A} (a : A) : M A := fun d => (Ret a, d, []).

Definition throw {A} (e : error) : M A := fun d => (Throw e, d, []).

Definition bind {A B} (m : M A) (k : A -> M B) : M B :=
  fun d =>
    match m d with
    | (Ret a, d1, t1) =>
        match k a d1 with
        | (r, d2, t2) => (r, d2, t1 ++ t2)
        end
    | (Throw e, d1, t1) => (Throw e, d1, t1)
    end.

Notation "'let*' x ':=' m 'in' k" := (bind m (fun x => k))
  (at level 10, x name, m at level 100, k at level 200).
Notation "'run' m 'then' k" := (bind m (fun _ => k))
  (at level 10, m at level 100, k at level 200).

Definition emit (e : event) : M unit := fun d => (Ret tt, d, [e]).

Definition res_render (view : string) (l : locals) : M unit :=
  emit (ResRender view l).
Definition res_redirect (target : string) : M unit :=
  emit (ResRedirect target).
Definition next (e : error) : M unit := emit (Next e).

(** [asyncHandler(fn)]: a rejection of [fn] is handed to [next]. *)
Definition asyncHandler (m : M unit) (d : db) : db * list event :=
  match m d with
  | (Ret _, d', t) => (d', t)
  | (Throw e, d', t) => (d', t ++ [Next e])
  end.

(** A handler that is not wrapped: nothing in it throws. *)
Definition plainHandler (m : M unit) (d : db) : db * list event :=
  match m d with
  | (_, d', t) => (d', t)
  end.

(** ** The document store *)

Module Store.

Definition has_id (id : string) (g : Genre) : bool := String.eqb (_id g) id.

(** [Model.findById(id)]: the document with that identifier, or [null]. *)
Definition findById (id : string) (gs : list Genre) : option Genre :=
  List.find (has_id id) gs.

(** The order of [.sort({ name: 1 })] with no collation: strings are
    compared code unit by code unit. *)
Definition str_le (s1 s2 : string) : Prop := String.leb s1 s2 = true.

Definition name_le (g1 g2 : Genre) : Prop := str_le (name g1) (name g2).

#[global] Instance name_le_dec : RelDecision name_le.
Proof. intros g1 g2. unfold name_le, str_le. apply bool_eq_dec. Defined.

(** [Genre.find().sort({ name: 1 })]. *)
Definition find_sort_by_name (gs : list Genre) : list Genre :=
  merge_sort name_le gs.

(** [Genre.findOne({ name })] under a collation: the first document whose
    name the collation takes for equal to [nm]. *)
Definition findOne_by_name (collation_eq : string -> string -> bool)
    (nm : string) (gs : list Genre) : option Genre :=
  List.find (fun g => collation_eq (name g) nm) gs.

(** [doc.save()] of a new document: an insert, refused by the unique index
    on [_id] when the identifier is taken. *)
Definition insert (g : Genre) (gs : list Genre) : option (list Genre) :=
  if List.existsb (has_id (_id g)) gs then None else Some (gs ++ [g]).

(** [findByIdAndDelete(id)]: the collection without the document. *)
Fixpoint delete_by_id (id : string) (gs : list Genre) : list Genre :=
  match gs with
  | [] => []
  | g :: gs' => if has_id id g then gs' else g :: delete_by_id id gs'
  end.

(** [findByIdAndUpdate(id, doc)]: the document found takes the name of
    [doc] and stays where it is, under the identifier it has. *)
Fixpoint update_by_id (id : string) (nm : string) (gs : list Genre)
    : list Genre :=
  match gs with
  | [] => []
  | g :: gs' =>
      if has_id id g then mkGenre (_id g) nm :: gs'
      else g :: update_by_id id nm gs'
  end.

(** The filter [{ genre: id }] on Books: the reference list contains [id]. *)
Definition references (id : string) (b : Book) : bool :=
  List.existsb (String.eqb id) (genre b).

Definition books_in_genre (id : string) (bs : list Book) : list Book :=
  List.filter (references id) bs.

Definition project_title_summary (b : Book) : BookSummary :=
  mkBookSummary (book_id b) (title b) (summary b).

(** [.populate("genre")]: each reference becomes the document it names;
    a reference to no document is left out. *)
Definition populate (gs : list Genre) (b : Book) : PopulatedBook :=
  mkPopulatedBook (book_id b) (title b) (summary b)
    (List.flat_map
       (fun id => match findById id gs with Some g => [g] | None => [] end)
       (genre b)).

End Store.

(** The error of reading a property of [null]. *)
Definition type_error_null (prop : string) : error :=
  mkError ("Cannot read properties of null (reading '" +:+ prop +:+ "')") None.

(** The error of an insert whose [_id] is taken. *)
Definition duplicate_key_error : error :=
  mkError "E11000 duplicate key error" None.

(** A read: logged, answers from the database, changes nothing. *)
Definition read {A} (q : query) (f : db -> A) : M A :=
  fun d => (Ret (f d), d, [Query q]).

Definition Genre_find_sort_by_name : M (list Genre) :=
  read QGenreFindSortByName (fun d => Store.find_sort_by_name (genres d)).

Definition Genre_findById (id : string) : M (option Genre) :=
  read (QGenreFindById id) (fun d => Store.findById id (genres d)).

Definition Book_find_title_summary (id : string) : M (list BookSummary) :=
  read (QBookFindByGenre id)
    (fun d => List.map Store.project_title_summary
                (Store.books_in_genre id (books d))).

Definition Book_find_populate (id : string) : M (list PopulatedBook) :=
  read (QBookFindByGenre id)
    (fun d => List.map (Store.populate (genres d))
                (Store.books_in_genre id (books d))).

Definition Genre_findOne_by_name (collation_eq : string -> string -> bool)
    (nm : string) : M (option Genre) :=
  read (QGenreFindOneByName nm)
    (fun d => Store.findOne_by_name collation_eq nm (genres d)).

Definition Genre_save (g : Genre) : M unit :=
  fun d =>
    match Store.insert g (genres d) with
    | Some gs => (Ret tt, mkDb gs (books d), [Query (QGenreSave g)])
    | None => (Throw duplicate_key_error, d, [Query (QGenreSave g)])
    end.

Definition Genre_findByIdAndDelete (id : string) : M (option Genre) :=
  fun d =>
    (Ret (Store.findById id (genres d)),
     mkDb (Store.delete_by_id id (genres d)) (books d),
     [Query (QGenreFindByIdAndDelete id)]).

(** With the options [{}] the answer is the document as it was before the
    update, or [null]. *)
Definition Genre_findByIdAndUpdate (id : string) (g : Genre)
    : M (option Genre) :=
  fun d =>
    (Ret (Store.findById id (genres d)),
     mkDb (Store.update_by_id id (name g) (genres d)) (books d),
     [Query (QGenreFindByIdAndUpdate id g)]).

(** [doc.url] where [doc] may be [null]. *)
Definition url_of (doc : option Genre) : M string :=
  match doc with
  | Some g => ret (url g)
  | None => throw (type_error_null "url")
  end.

Definition genre_or_null (doc : option Genre) : value :=
  match doc with
  | Some g => VGenre g
  | None => VNull
  end.

(** ** The validation chain *)

Definition name_message : string :=
  "Genre name must contain at least 3 characters".

(** [body("name", message).trim().isLength({ min: 3 }).escape()]: the field
    is trimmed, the trimmed value is checked, the trimmed value is escaped
    and written back to [req.body.name]; a failed check leaves one entry in
    the validation result. *)
Definition body_name_chain (req : request) : request * list ValidationError :=
  let trimmed := Validator.trim (body_name req) in
  let errors :=
    if Validator.isLength 3 trimmed then []
    else [mkValidationError "name" name_message] in
  (mkRequest (params_id req) (Validator.escape trimmed) (body_genreid req),
   errors).

(** [errors.isEmpty()]. *)
Definition isEmpty (errors : list ValidationError) : bool :=
  match errors with [] => true | _ => false end.

(** ** A collation for the examples *)

Module Collation.

(** Upper-case ASCII letters are taken for their lower-case ones. *)
Definition fold_char (c : ascii) : ascii :=
  let n := nat_of_ascii c in
  if Nat.leb 65 n && Nat.leb n 90 then ascii_of_nat (n + 32) else c.

Fixpoint fold (s : string) : string :=
  match s with
  | EmptyString => EmptyString
  | String c s' => String (fold_char c) (fold s')
  end.

(** Equality that ignores the case of ASCII letters: what locale ["en"] at
    strength 2 decides on strings of ASCII letters and punctuation. *)
Definition ascii_ci_eq (s1 s2 : string) : bool :=
  String.eqb (fold s1) (fold s2).

End Collation.

(** ** The handlers *)

Section Controller.

(** The comparison of [.collation({ locale: "en", strength: 2 })], owned by
    the database. *)
Variable collation_eq : string -> string -> bool.

(** Display list of all Genre. *)
Definition genre_list (req : request) : db -> db * list event :=
  asyncHandler (
    let* allGenres := Genre_find_sort_by_name in
    res_render "genre_list"
      [("title", VString "Genre List");
       ("genre_list", VGenreList allGenres)]).

(** Display detail page for a specific Genre. *)
Definition genre_detail (req : request) : db -> db * list event :=
  asyncHandler (
    let* genre := Genre_findById (params_id req) in
    let* booksInGenre := Book_find_title_summary (params_id req) in
    match genre with
    | None => next (mkError "Genre not found" (Some 404))
    | Some g =>
        res_render "genre_detail"
          [("title", VString "Genre Detail");
           ("genre", VGenre g);
           ("genre_books", VBookSummaries booksInGenre)]
    end).

(** Display Genre create form on GET. *)
Definition genre_create_get (req : request) : db -> db * list event :=
  plainHandler (res_render "genre_form" [("title", VString "Create Genre")]).

(** Handle Genre create on POST. [oid] is the identifier that
    [new Genre(...)] gives the document it builds. *)
Definition genre_create_post (oid : string) (req0 : request)
    : db -> db * list event :=
  let '(req, errors) := body_name_chain req0 in
  asyncHandler (
    let genre := mkGenre oid (body_name req) in
    if negb (isEmpty errors) then
      res_render "genre_form"
        [("title", VString "Create Genre");
         ("genre", VGenre genre);
         ("errors", VErrors errors)]
    else
      let* genreExists := Genre_findOne_by_name collation_eq (body_name req) in
      match genreExists with
      | Some existing => res_redirect (url existing)
      | None =>
          run Genre_save genre then
          res_redirect (url genre)
      end).

(** Display Genre delete form on GET. The branch for an absent Genre does
    not return: the render that follows it runs in both cases. *)
Definition genre_delete_get (req : request) : db -> db * list event :=
  asyncHandler (
    let* genre := Genre_findById (params_id req) in
    let* allBooksInGenre := Book_find_populate (params_id req) in
    run (match genre with
         | None => res_redirect "/catalog/genres"
         | Some _ => ret tt
         end) then
    res_render "genre_delete"
      [("title", VString "Delete genre");
       ("genre", genre_or_null genre);
       ("genre_books", VBooks allBooksInGenre)]).

(** Handle Genre delete on POST. *)
Definition genre_delete_post (req : request) : db -> db * list event :=
  asyncHandler (
    let* genre := Genre_findById (params_id req) in
    let* allBooksInGenre := Book_find_populate (params_id req) in
    if Nat.ltb 0 (length allBooksInGenre) then
      res_render "genre_delete"
        [("title", VString "Delete Genre");
         ("genre", genre_or_null genre);
         ("genre_books", VBooks allBooksInGenre)]
    else
      run Genre_findByIdAndDelete (body_genreid req) then
      res_redirect "/catalog/genres").

(** Display genre update form on GET. *)
Definition genre_update_get (req : request) : db -> db * list event :=
  asyncHandler (
    let* genre := Genre_findById (params_id req) in
    match genre with
    | None => next (mkError "Book not found" (Some 404))
    | Some g =>
        res_render "genre_form"
          [("title", VString "Update Genre");
           ("genre", VGenre g)]
    end).

(** Handle genre update on POST. *)
Definition genre_update_post (req0 : request) : db -> db * list event :=
  let '(req, errors) := body_name_chain req0 in
  asyncHandler (
    let genre := mkGenre (params_id req) (body_name req) in
    if negb (isEmpty errors) then
      res_render "genre_form"
        [("title", VString "Update Genre");
         ("genre", VGenre genre);
         ("errors", VErrors errors)]
    else
      let* updatedGenre := Genre_findByIdAndUpdate (params_id req) genre in
      let* target := url_of updatedGenre in
      res_redirect target).

End Controller.

(** ** Example data *)

Module Examples.


Definition fantasy : Genre := mkGenre "g1" "Fantasy".
Definition rhythm : Genre := mkGenre "g2" "R&amp;B".
Definition zeta : Genre := mkGenre "g3" "Zeta".
Definition alpha : Genre := mkGenre "g4" "Alpha".

Definition hobbit : Book := mkBook "b1" "The Hobbit" "There and back" ["g1"].

Definition library : db := mkDb [fantasy; rhythm] [hobbit].

Definition post (id nm genreid : string) : request := mkRequest id nm genreid.

End Examples.

Import Examples.

(** ** Predicates on strings used in the statements *)

Module Chars.

(** The character [c] occurs in [s]. *)
Fixpoint has (c : ascii) (s : string) : bool :=
  match s with
  | EmptyString => false
  | String a s' => Ascii.eqb a c || has c s'
  end.

(** Every character of [s] is white space; the empty string counts. *)
Fixpoint all_space (s : string) : bool :=
  match s with
  | EmptyString => true
  | String a s' => Validator.is_space a && all_space s'
  end.

(** The characters that are significant in markup and that [escape]
    replaces, the ampersand apart. *)
Definition is_markup (c : ascii) : bool :=
  List.existsb (Ascii.eqb c)
    ["<"%char; ">"%char; Validator.dquote; Validator.squote; "/"%char;
     Validator.backslash; Validator.backquote].

End Chars.

(** * Properties *)

(** ** The order on names *)

Section NameOrder.

Lemma ascii_compare_refl (a : ascii) : Ascii.compare a a = Eq.
Proof. unfold Ascii.compare. apply N.compare_refl. Qed.

Lemma ascii_compare_lt_trans (a b c : ascii) :
  Ascii.compare a b = Lt -> Ascii.compare b c = Lt -> Ascii.compare a c = Lt.
Proof.
  unfold Ascii.compare. rewrite !N.compare_lt_iff. apply N.lt_trans.
Qed.

Lemma string_compare_refl (s : string) : String.compare s s = Eq.
Proof.
  induction s as [|a s IH]; simpl; [reflexivity|].
  now rewrite ascii_compare_refl.
Qed.

Lemma string_compare_lt_trans (s1 : string) :
  forall s2 s3,
    String.compare s1 s2 = Lt -> String.compare s2 s3 = Lt ->
    String.compare s1 s3 = Lt.
Proof.
  induction s1 as [|a s1 IH]; intros [|b s2] [|c s3]; simpl;
    try congruence.
  destruct (Ascii.compare a b) eqn:Hab; try discriminate;
    destruct (Ascii.compare b c) eqn:Hbc; try discriminate; intros H12 H23.
  - apply Ascii.compare_eq_iff in Hab, Hbc. subst.
    rewrite ascii_compare_refl. eauto.
  - apply Ascii.compare_eq_iff in Hab. subst. now rewrite Hbc.
  - apply Ascii.compare_eq_iff in Hbc. subst. now rewrite Hab.
  - now rewrite (ascii_compare_lt_trans a b c).
Qed.

Lemma string_leb_spec (s1 s2 : string) :
  String.leb s1 s2 = true <-> String.compare s1 s2 = Lt \/ s1 = s2.
Proof.
  unfold String.leb. split.
  - destruct (String.compare s1 s2) eqn:H; try discriminate; intros _.
    + right. now apply String.compare_eq_iff.
    + now left.
  - intros [-> | ->]; [reflexivity|]. now rewrite string_compare_refl.
Qed.

Lemma string_leb_trans (s1 s2 s3 : string) :
  String.leb s1 s2 = true -> String.leb s2 s3 = true ->
  String.leb s1 s3 = true.
Proof.
  rewrite !string_leb_spec. intros [H12 | ->] [H23 | ->]; auto.
  left. eapply string_compare_lt_trans; eauto.
Qed.

#[global] Instance str_le_trans : Transitive Store.str_le.
Proof. intros s1 s2 s3. apply string_leb_trans. Qed.

#[global] Instance str_le_antisym : AntiSymm (=) Store.str_le.
Proof. intros s1 s2. apply String.leb_antisym. Qed.

#[global] Instance name_le_total : Total Store.name_le.
Proof. intros g1 g2. apply String.leb_total. Qed.

End NameOrder.

(** ** The store operations *)

Section StoreFacts.

Lemma has_id_true (id : string) (g : Genre) :
  Store.has_id id g = true <-> _id g = id.
Proof. unfold Store.has_id. apply String.eqb_eq. Qed.

Lemma has_id_false (id : string) (g : Genre) :
  Store.has_id id g = false <-> _id g <> id.
Proof. unfold Store.has_id. apply String.eqb_neq. Qed.

(** No document has the identifier exactly when the lookup finds none. *)
Lemma findById_None (id : string) (gs : list Genre) :
  Store.findById id gs = None <-> (forall g, In g gs -> _id g <> id).
Proof.
  unfold Store.findById. split.
  - intros H g Hg. apply has_id_false. eapply find_none; eauto.
  - induction gs as [|g gs IH]; intros H; simpl; [reflexivity|].
    destruct (Store.has_id id g) eqn:E.
    + apply has_id_true in E. exfalso. apply (H g); simpl; auto.
    + apply IH. intros g' Hg'. apply H. simpl; auto.
Qed.

(** What a lookup finds is in the collection, under that identifier. *)
Lemma findById_Some (id : string) (gs : list Genre) (g : Genre) :
  Store.findById id gs = Some g -> In g gs /\ _id g = id.
Proof.
  unfold Store.findById. intros H. apply find_some in H.
  destruct H as [H1 H2]. split; [assumption|]. now apply has_id_true.
Qed.

(** Identifiers are unique: the lookup finds the document that is there. *)
Lemma findById_unique (id : string) (gs : list Genre) (g : Genre) :
  List.NoDup (List.map _id gs) -> In g gs -> _id g = id ->
  Store.findById id gs = Some g.
Proof.
  unfold Store.findById.
  induction gs as [|g0 gs IH]; simpl; intros Hnd Hin Hid; [contradiction|].
  apply NoDup_cons_iff in Hnd as [Hnotin Hnd].
  destruct (Store.has_id id g0) eqn:E.
  - apply has_id_true in E. destruct Hin as [-> | Hin]; [reflexivity|].
    exfalso. apply Hnotin. rewrite E, <- Hid. now apply in_map.
  - apply has_id_false in E. destruct Hin as [-> | Hin]; [congruence|].
    now apply IH.
Qed.

Lemma existsb_has_id_false (id : string) (gs : list Genre) :
  ~ In id (List.map _id gs) -> List.existsb (Store.has_id id) gs = false.
Proof.
  induction gs as [|g gs IH]; simpl; intros H; [reflexivity|].
  apply orb_false_iff. split.
  - apply has_id_false. intros E. apply H. now left.
  - apply IH. intros E. apply H. now right.
Qed.

Lemma update_by_id_ids (id nm : string) (gs : list Genre) :
  List.map _id (Store.update_by_id id nm gs) = List.map _id gs.
Proof.
  induction gs as [|g gs IH]; simpl; [reflexivity|].
  destruct (Store.has_id id g); simpl; [reflexivity|]. now rewrite IH.
Qed.

Lemma update_by_id_length (id nm : string) (gs : list Genre) :
  length (Store.update_by_id id nm gs) = length gs.
Proof.
  rewrite <- (length_map _id), update_by_id_ids. apply length_map.
Qed.

Lemma update_by_id_In (id nm : string) (gs : list Genre) (g : Genre) :
  In g gs -> _id g = id -> In (mkGenre id nm) (Store.update_by_id id nm gs).
Proof.
  induction gs as [|g0 gs IH]; simpl; intros Hin Hid; [contradiction|].
  destruct (Store.has_id id g0) eqn:E.
  - apply has_id_true in E. rewrite E. now left.
  - apply has_id_false in E. destruct Hin as [-> | Hin]; [congruence|].
    right. now apply IH.
Qed.

Lemma update_by_id_found (id nm : string) (gs : list Genre) (g : Genre) :
  In g gs -> _id g = id ->
  Store.findById id (Store.update_by_id id nm gs) = Some (mkGenre id nm).
Proof.
  unfold Store.findById.
  induction gs as [|g0 gs IH]; simpl; intros Hin Hid; [contradiction|].
  destruct (Store.has_id id g0) eqn:E; simpl.
  - apply has_id_true in E. unfold Store.has_id at 1. simpl.
    rewrite E, String.eqb_refl. reflexivity.
  - rewrite E. apply has_id_false in E.
    destruct Hin as [-> | Hin]; [congruence|]. now apply IH.
Qed.

Lemma update_by_id_others (id nm : string) (gs : list Genre) (g : Genre) :
  _id g <> id -> In g gs -> In g (Store.update_by_id id nm gs).
Proof.
  induction gs as [|g0 gs IH]; simpl; intros Hne Hin; [contradiction|].
  destruct (Store.has_id id g0) eqn:E.
  - apply has_id_true in E. destruct Hin as [-> | Hin]; [congruence|].
    now right.
  - destruct Hin as [-> | Hin]; [now left|]. right. now apply IH.
Qed.

Lemma update_by_id_absent (id nm : string) (gs : list Genre) :
  (forall g, In g gs -> _id g <> id) -> Store.update_by_id id nm gs = gs.
Proof.
  induction gs as [|g gs IH]; simpl; intros H; [reflexivity|].
  destruct (Store.has_id id g) eqn:E.
  - apply has_id_true in E. exfalso. apply (H g); auto.
  - f_equal. apply IH. intros g' Hg'. apply H. auto.
Qed.

Lemma delete_by_id_absent (id : string) (gs : list Genre) :
  (forall g, In g gs -> _id g <> id) -> Store.delete_by_id id gs = gs.
Proof.
  induction gs as [|g gs IH]; simpl; intros H; [reflexivity|].
  destruct (Store.has_id id g) eqn:E.
  - apply has_id_true in E. exfalso. apply (H g); auto.
  - f_equal. apply IH. intros g' Hg'. apply H. auto.
Qed.

(** With unique identifiers, the identifier is gone after the delete. *)
Lemma delete_by_id_gone (id : string) (gs : list Genre) :
  List.NoDup (List.map _id gs) ->
  forall g, In g (Store.delete_by_id id gs) -> _id g <> id.
Proof.
  induction gs as [|g0 gs IH]; simpl; intros Hnd g Hin; [contradiction|].
  apply NoDup_cons_iff in Hnd as [Hnotin Hnd].
  destruct (Store.has_id id g0) eqn:E.
  - apply has_id_true in E. intros Hid. apply Hnotin.
    rewrite E, <- Hid. now apply in_map.
  - apply has_id_false in E. destruct Hin as [<- | Hin]; [assumption|].
    now apply IH.
Qed.

(** Every other document survives the delete. *)
Lemma delete_by_id_others (id : string) (gs : list Genre) (g : Genre) :
  _id g <> id -> In g gs -> In g (Store.delete_by_id id gs).
Proof.
  induction gs as [|g0 gs IH]; simpl; intros Hne Hin; [contradiction|].
  destruct (Store.has_id id g0) eqn:E.
  - apply has_id_true in E. destruct Hin as [-> | Hin]; [congruence|].
    assumption.
  - destruct Hin as [-> | Hin]; [now left|]. right. now apply IH.
Qed.

(** The sorted read returns every document once, in the order of names. *)
Lemma find_sort_by_name_Permutation (gs : list Genre) :
  Permutation (Store.find_sort_by_name gs) gs.
Proof. apply merge_sort_Permutation. Qed.

Lemma find_sort_by_name_Sorted (gs : list Genre) :
  Sorted Store.name_le (Store.find_sort_by_name gs).
Proof. apply (Sorted_merge_sort Store.name_le). Qed.

(** Two collections with the same documents list the same names. *)
Lemma find_sort_by_name_order_free (gs1 gs2 : list Genre) :
  Permutation gs1 gs2 ->
  List.map name (Store.find_sort_by_name gs1) =
  List.map name (Store.find_sort_by_name gs2).
Proof.
  intros Hp.
  apply (Sorted_unique Store.str_le).
  - apply (Sorted_fmap name Store.name_le Store.str_le); [auto|].
    apply find_sort_by_name_Sorted.
  - apply (Sorted_fmap name Store.name_le Store.str_le); [auto|].
    apply find_sort_by_name_Sorted.
  - apply Permutation_map.
    rewrite !find_sort_by_name_Permutation. assumption.
Qed.

End StoreFacts.

(** ** The validation chain *)

Section Chain.

Lemma chain_valid (req : request) :
  3 <= String.length (Validator.trim (body_name req)) ->
  body_name_chain req =
    (mkRequest (params_id req)
       (Validator.escape (Validator.trim (body_name req)))
       (body_genreid req),
     []).
Proof.
  intros H. unfold body_name_chain, Validator.isLength.
  apply Nat.leb_le in H. now rewrite H.
Qed.

Lemma chain_invalid (req : request) :
  String.length (Validator.trim (body_name req)) < 3 ->
  body_name_chain req =
    (mkRequest (params_id req)
       (Validator.escape (Validator.trim (body_name req)))
       (body_genreid req),
     [mkValidationError "name" name_message]).
Proof.
  intros H. unfold body_name_chain, Validator.isLength.
  apply Nat.leb_gt in H. now rewrite H.
Qed.

(** The Books that reference an identifier, in terms of membership. *)
Lemma books_in_genre_spec (id : string) (bs : list Book) (b : Book) :
  In b (Store.books_in_genre id bs) <-> In b bs /\ In id (genre b).
Proof.
  unfold Store.books_in_genre, Store.references.
  rewrite filter_In, existsb_exists. split.
  - intros [Hb [x [Hx E]]]. apply String.eqb_eq in E. now subst.
  - intros [Hb Hid]. split; [assumption|]. exists id. split; [assumption|].
    apply String.eqb_refl.
Qed.

End Chain.

Ltac run_handler :=
  cbv [asyncHandler plainHandler bind ret throw emit read res_render
       res_redirect next Genre_findById Book_find_title_summary
       Book_find_populate Genre_findOne_by_name Genre_save
       Genre_findByIdAndDelete Genre_findByIdAndUpdate
       Genre_find_sort_by_name url_of genre_or_null isEmpty negb];
  cbn [fst snd app params_id body_name body_genreid].

(** ** Listing *)

(** C7. [genre_list] renders the genre-list view with every Genre of the
    store, each once, ordered by name ascending in code-unit order; two
    stores holding the same Genres, inserted in any order, are listed with
    the same sequence of names. The store is left as it was. *)
Theorem genre_list_sorted_by_name (req : request) (d : db) :
  exists l,
    genre_list req d =
      (d, [Query QGenreFindSortByName;
           ResRender "genre_list"
             [("title", VString "Genre List"); ("genre_list", VGenreList l)]])
    /\ Permutation l (genres d)
    /\ Sorted (fun g1 g2 => String.leb (name g1) (name g2) = true) l
    /\ forall d',
         Permutation (genres d') (genres d) ->
         exists l',
           genre_list req d' =
             (d', [Query QGenreFindSortByName;
                   ResRender "genre_list"
                     [("title", VString "Genre List");
                      ("genre_list", VGenreList l')]])
           /\ List.map name l' = List.map name l.
Proof.
  exists (Store.find_sort_by_name (genres d)).
  split; [reflexivity|].
  split; [apply find_sort_by_name_Permutation|].
  split; [apply find_sort_by_name_Sorted|].
  intros d' Hp. exists (Store.find_sort_by_name (genres d')).
  split; [reflexivity|]. now apply find_sort_by_name_order_free.
Qed.

(** Inserting "Zeta" then "Alpha" lists "Alpha" before "Zeta", as does
    inserting them the other way round. *)
Lemma genre_list_sorted_by_name_witness :
  exists l,
    genre_list (post "" "" "") (mkDb [zeta; alpha] []) =
      (mkDb [zeta; alpha] [],
       [Query QGenreFindSortByName;
        ResRender "genre_list"
          [("title", VString "Genre List"); ("genre_list", VGenreList l)]])
    /\ List.map name l = ["Alpha"; "Zeta"]
    /\ exists l',
         genre_list (post "" "" "") (mkDb [alpha; zeta] []) =
           (mkDb [alpha; zeta] [],
            [Query QGenreFindSortByName;
             ResRender "genre_list"
               [("title", VString "Genre List");
                ("genre_list", VGenreList l')]])
         /\ List.map name l' = List.map name l.
Proof.
  destruct (genre_list_sorted_by_name (post "" "" "") (mkDb [zeta; alpha] []))
    as [l [Hl [_ [_ Hfree]]]].
  exists l. split; [exact Hl|]. split.
  - vm_compute in Hl. injection Hl as <-. reflexivity.
  - apply (Hfree (mkDb [alpha; zeta] [])). simpl. apply perm_swap.
Defined.

(** ** Detail *)

(** C5. [genre_detail] leaves the store as it was. When no Genre has the
    requested identifier, its only call is [next] with the error
    "Genre not found" of status 404: nothing is rendered. When a Genre has
    it, its only call renders the genre-detail view with that Genre and the
    title and summary of the Books whose genre references include the
    identifier. *)
Theorem genre_detail_not_found_or_rendered (req : request) (d : db) :
  fst (genre_detail req d) = d
  /\ ((forall g, In g (genres d) -> _id g <> params_id req) ->
      responses (snd (genre_detail req d)) =
        [Next (mkError "Genre not found" (Some 404))])
  /\ (forall g,
        unique_ids d -> In g (genres d) -> _id g = params_id req ->
        responses (snd (genre_detail req d)) =
          [ResRender "genre_detail"
             [("title", VString "Genre Detail");
              ("genre", VGenre g);
              ("genre_books",
               VBookSummaries
                 (List.map Store.project_title_summary
                    (Store.books_in_genre (params_id req) (books d))))]])
  /\ (forall b,
        In b (Store.books_in_genre (params_id req) (books d)) <->
        In b (books d) /\ In (params_id req) (genre b)).
Proof.
  split; [|split; [|split]].
  - unfold genre_detail. run_handler.
    now destruct (Store.findById (params_id req) (genres d)).
  - intros Habsent. apply findById_None in Habsent.
    unfold genre_detail. run_handler. now rewrite Habsent.
  - intros g Hu Hin Hid.
    unfold genre_detail. run_handler.
    now rewrite (findById_unique _ _ g Hu Hin Hid).
  - intros b. apply books_in_genre_spec.
Qed.

(** In the example library, "zz" names no Genre and "g1" names Fantasy. *)
Lemma genre_detail_not_found_or_rendered_witness :
  responses (snd (genre_detail (post "zz" "" "") library)) =
    [Next (mkError "Genre not found" (Some 404))]
  /\ responses (snd (genre_detail (post "g1" "" "") library)) =
       [ResRender "genre_detail"
          [("title", VString "Genre Detail");
           ("genre", VGenre fantasy);
           ("genre_books",
            VBookSummaries [mkBookSummary "b1" "The Hobbit" "There and back"])]].
Proof.
  split.
  - apply (proj1 (proj2
             (genre_detail_not_found_or_rendered (post "zz" "" "") library))).
    intros g Hg. simpl in Hg.
    destruct Hg as [<- | [<- | []]]; discriminate.
  - apply (proj1 (proj2 (proj2
             (genre_detail_not_found_or_rendered (post "g1" "" "") library)))
             fantasy).
    + unfold unique_ids. simpl.
      repeat constructor; simpl; intuition discriminate.
    + simpl. now left.
    + reflexivity.
Defined.

(** ** Create *)

(** C4. When the trimmed name is shorter than 3 characters,
    [genre_create_post] leaves the store as it was and its only action is to
    render the form view, answered with status 200, with the trimmed and
    escaped name and the list holding the one validation message. *)
Theorem create_invalid_name_rerenders_form
    (collation_eq : string -> string -> bool) (oid : string)
    (req : request) (d : db) :
  String.length (Validator.trim (body_name req)) < 3 ->
  let form :=
    ResRender "genre_form"
      [("title", VString "Create Genre");
       ("genre",
        VGenre (mkGenre oid (Validator.escape (Validator.trim (body_name req)))));
       ("errors",
        VErrors
          [mkValidationError "name"
             "Genre name must contain at least 3 characters"])] in
  genre_create_post collation_eq oid req d = (d, [form])
  /\ http_status form = Some 200.
Proof.
  intros H form. split; [|reflexivity].
  unfold genre_create_post. rewrite (chain_invalid req H). reflexivity.
Qed.

(** The name "ab", padded with blanks, is refused. *)
Lemma create_invalid_name_rerenders_form_witness :
  genre_create_post Collation.ascii_ci_eq "n1" (post "" " ab  " "") library =
    (library,
     [ResRender "genre_form"
        [("title", VString "Create Genre");
         ("genre", VGenre (mkGenre "n1" "ab"));
         ("errors",
          VErrors
            [mkValidationError "name"
               "Genre name must contain at least 3 characters"])]]).
Proof.
  apply (create_invalid_name_rerenders_form
           Collation.ascii_ci_eq "n1" (post "" " ab  " "") library).
  vm_compute. lia.
Defined.

(** C1, as amended. When the trimmed name has at least 3 characters, let
    [nm] be the trimmed and escaped name. If the collation takes the name of
    some Genre of the store for equal to [nm], the store is left as it was
    and the only call on the response redirects to the detail URL of such a
    Genre. If it takes none for equal and the identifier of the new document
    is not taken, the store gains exactly that one Genre, named [nm], and
    the only call on the response redirects to its detail URL. *)
Theorem create_valid_name_redirects_or_inserts
    (collation_eq : string -> string -> bool) (oid : string)
    (req : request) (d : db) :
  3 <= String.length (Validator.trim (body_name req)) ->
  let nm := Validator.escape (Validator.trim (body_name req)) in
  ((exists g, In g (genres d) /\ collation_eq (name g) nm = true) ->
   fst (genre_create_post collation_eq oid req d) = d
   /\ exists g,
        In g (genres d) /\ collation_eq (name g) nm = true
        /\ responses (snd (genre_create_post collation_eq oid req d)) =
             [ResRedirect (url g)])
  /\ ((forall g, In g (genres d) -> collation_eq (name g) nm = false) ->
      ~ In oid (List.map _id (genres d)) ->
      fst (genre_create_post collation_eq oid req d) =
        mkDb (genres d ++ [mkGenre oid nm]) (books d)
      /\ responses (snd (genre_create_post collation_eq oid req d)) =
           [ResRedirect ("/catalog/genre/" +:+ oid)]).
Proof.
  intros Hlen nm. unfold genre_create_post. rewrite (chain_valid req Hlen).
  fold nm. run_handler. unfold Store.findOne_by_name. split.
  - intros [g0 [Hin0 Heq0]].
    destruct (List.find (fun g => collation_eq (name g) nm) (genres d))
      as [g|] eqn:Hfind.
    + split; [reflexivity|]. apply find_some in Hfind.
      exists g. simpl. tauto.
    + exfalso. apply (find_none _ _ Hfind) in Hin0. simpl in Hin0. congruence.
  - intros Hnone Hfresh.
    destruct (List.find (fun g => collation_eq (name g) nm) (genres d))
      as [g|] eqn:Hfind.
    + exfalso. apply find_some in Hfind. destruct Hfind as [Hin Heq].
      rewrite (Hnone g Hin) in Heq. discriminate.
    + unfold Store.insert. cbn [_id].
      rewrite (existsb_has_id_false oid (genres d) Hfresh). now simpl.
Qed.

(** Submitting " fantasy " finds Fantasy; submitting "Sci/Fi" adds a Genre. *)
Lemma create_valid_name_redirects_or_inserts_witness :
  (fst (genre_create_post Collation.ascii_ci_eq "n1"
          (post "" " fantasy " "") library) = library
   /\ exists g,
        In g (genres library)
        /\ Collation.ascii_ci_eq (name g) "fantasy" = true
        /\ responses (snd (genre_create_post Collation.ascii_ci_eq "n1"
                             (post "" " fantasy " "") library)) =
             [ResRedirect (url g)])
  /\ (fst (genre_create_post Collation.ascii_ci_eq "n1"
             (post "" "Sci/Fi" "") library) =
        mkDb [fantasy; rhythm; mkGenre "n1" "Sci&#x2F;Fi"] [hobbit]
      /\ responses (snd (genre_create_post Collation.ascii_ci_eq "n1"
                           (post "" "Sci/Fi" "") library)) =
           [ResRedirect "/catalog/genre/n1"]).
Proof.
  split.
  - apply (create_valid_name_redirects_or_inserts
             Collation.ascii_ci_eq "n1" (post "" " fantasy " "") library).
    + vm_compute. lia.
    + exists fantasy. split; [simpl; now left | reflexivity].
  - apply (create_valid_name_redirects_or_inserts
             Collation.ascii_ci_eq "n1" (post "" "Sci/Fi" "") library).
    + vm_compute. lia.
    + intros g Hg. simpl in Hg. destruct Hg as [<- | [<- | []]]; reflexivity.
    + simpl. intuition discriminate.
Defined.

(** C1, as stated, fails. The store holds the Genre that an earlier
    submission of "R&B" created. Submitting "R&B" again is valid, and no
    Genre of the store has a name the collation takes for equal to the
    submitted "R&B"; yet nothing is inserted, and the response redirects to
    the Genre already there. *)
Lemma create_submitted_name_counterexample :
  let req := post "" "R&B" "" in
  3 <= String.length (Validator.trim (body_name req))
  /\ (forall g, In g (genres library) ->
                Collation.ascii_ci_eq (name g) (body_name req) = false)
  /\ genre_create_post Collation.ascii_ci_eq "n1" req library =
       (library,
        [Query (QGenreFindOneByName "R&amp;B");
         ResRedirect "/catalog/genre/g2"]).
Proof.
  split; [vm_compute; lia|]. split; [|reflexivity].
  intros g Hg. simpl in Hg. destruct Hg as [<- | [<- | []]]; reflexivity.
Qed.

(** ** Update *)

(** C3, as amended. When the trimmed name has at least 3 characters and a
    Genre has the requested identifier, then after [genre_update_post] the
    store holds, under that identifier, a Genre whose name is the trimmed
    and escaped name; the identifiers of the store are the same as before,
    in the same places, so that no document was added; the other Genres and
    the Books are as they were; and the only call on the response redirects
    to the detail URL of that identifier. *)
Theorem update_valid_name_keeps_identifier
    (req : request) (d : db) (g : Genre) :
  3 <= String.length (Validator.trim (body_name req)) ->
  In g (genres d) ->
  _id g = params_id req ->
  let nm := Validator.escape (Validator.trim (body_name req)) in
  let d' := fst (genre_update_post req d) in
  In (mkGenre (params_id req) nm) (genres d')
  /\ Store.findById (params_id req) (genres d') =
       Some (mkGenre (params_id req) nm)
  /\ List.map _id (genres d') = List.map _id (genres d)
  /\ (forall g', In g' (genres d) -> _id g' <> params_id req ->
                 In g' (genres d'))
  /\ books d' = books d
  /\ responses (snd (genre_update_post req d)) =
       [ResRedirect ("/catalog/genre/" +:+ params_id req)].
Proof.
  intros Hlen Hin Hid nm d'. subst d'.
  unfold genre_update_post. rewrite (chain_valid req Hlen). fold nm.
  run_handler.
  destruct (Store.findById (params_id req) (genres d)) as [g0|] eqn:Hfind.
  - apply findById_Some in Hfind as [_ Hid0]. cbn [fst snd genres books name].
    repeat split.
    + now apply (update_by_id_In _ _ _ g).
    + now apply (update_by_id_found _ _ _ g).
    + apply update_by_id_ids.
    + intros g' Hg' Hne. now apply update_by_id_others.
    + unfold responses, url. simpl. now rewrite Hid0.
  - exfalso. rewrite findById_None in Hfind. now apply (Hfind g).
Qed.

(** Renaming Fantasy to " Sci/Fi " stores "Sci&#x2F;Fi" under "g1". *)
Lemma update_valid_name_keeps_identifier_witness :
  genres (fst (genre_update_post (post "g1" " Sci/Fi " "") library)) =
    [mkGenre "g1" "Sci&#x2F;Fi"; rhythm]
  /\ Store.findById "g1"
       (genres (fst (genre_update_post (post "g1" " Sci/Fi " "") library))) =
       Some (mkGenre "g1" "Sci&#x2F;Fi")
  /\ responses (snd (genre_update_post (post "g1" " Sci/Fi " "") library)) =
       [ResRedirect "/catalog/genre/g1"].
Proof.
  assert (H : 3 <= String.length
                     (Validator.trim (body_name (post "g1" " Sci/Fi " ""))))
    by (vm_compute; lia).
  assert (Hin : In fantasy (genres library)) by (simpl; now left).
  destruct (update_valid_name_keeps_identifier
              (post "g1" " Sci/Fi " "") library fantasy H Hin eq_refl)
    as [_ [Hfound [_ [_ [_ Hres]]]]].
  split; [reflexivity|]. split; [exact Hfound | exact Hres].
Defined.

(** C3, as stated, fails. Fantasy is renamed with the valid name "R&B";
    afterwards the Genre under "g1" is named "R&amp;B", so no Genre under
    that identifier carries the submitted name. *)
Lemma update_submitted_name_counterexample :
  let req := post "g1" "R&B" "" in
  let d' := fst (genre_update_post req library) in
  3 <= String.length (Validator.trim (body_name req))
  /\ In fantasy (genres library)
  /\ _id fantasy = params_id req
  /\ Store.findById (params_id req) (genres d') = Some (mkGenre "g1" "R&amp;B")
  /\ ~ exists g, In g (genres d') /\ _id g = params_id req
                 /\ name g = body_name req.
Proof.
  split; [vm_compute; lia|]. split; [simpl; now left|].
  split; [reflexivity|]. split; [reflexivity|].
  intros [g [Hin [Hid Hname]]]. vm_compute in Hin.
  destruct Hin as [<- | [<- | []]]; discriminate.
Qed.

(** C9. When the trimmed name has at least 3 characters and no Genre has
    the requested identifier, [genre_update_post] changes nothing in the
    store; the update answers [null], reading its [url] throws, and the only
    call made is [next] with that error, which carries no status: neither a
    404 error nor a redirect nor a view is produced. *)
Theorem update_absent_genre_throws (req : request) (d : db) :
  3 <= String.length (Validator.trim (body_name req)) ->
  (forall g, In g (genres d) -> _id g <> params_id req) ->
  fst (genre_update_post req d) = d
  /\ responses (snd (genre_update_post req d)) =
       [Next (type_error_null "url")]
  /\ status (type_error_null "url") = None
  /\ forall e, In e (snd (genre_update_post req d)) ->
               http_status e <> Some 404.
Proof.
  intros Hlen Habsent.
  unfold genre_update_post. rewrite (chain_valid req Hlen). run_handler.
  rewrite (update_by_id_absent _ _ _ Habsent).
  apply findById_None in Habsent. rewrite Habsent. cbn [fst snd].
  split; [now destruct d|]. split; [reflexivity|]. split; [reflexivity|].
  intros e [<- | [<- | []]]; discriminate.
Qed.

(** Updating the identifier "zz", which names no Genre of the library. *)
Lemma update_absent_genre_throws_witness :
  genre_update_post (post "zz" "Poetry" "") library =
    (library,
     [Query (QGenreFindByIdAndUpdate "zz" (mkGenre "zz" "Poetry"));
      Next (mkError "Cannot read properties of null (reading 'url')" None)])
  /\ responses (snd (genre_update_post (post "zz" "Poetry" "") library)) =
       [Next (type_error_null "url")].
Proof.
  split; [reflexivity|].
  apply (update_absent_genre_throws (post "zz" "Poetry" "") library).
  - vm_compute. lia.
  - intros g Hg. simpl in Hg. destruct Hg as [<- | [<- | []]]; discriminate.
Defined.

(** C10. When the trimmed name is shorter than 3 characters, neither
    [genre_create_post] nor [genre_update_post] issues any query, and each
    leaves the Genres and the Books as they were. *)
Theorem invalid_name_issues_no_query
    (collation_eq : string -> string -> bool) (oid : string)
    (req : request) (d : db) :
  String.length (Validator.trim (body_name req)) < 3 ->
  (fst (genre_create_post collation_eq oid req d) = d
   /\ queries (snd (genre_create_post collation_eq oid req d)) = [])
  /\ (fst (genre_update_post req d) = d
      /\ queries (snd (genre_update_post req d)) = []).
Proof.
  intros H. unfold genre_create_post, genre_update_post.
  rewrite (chain_invalid req H). repeat split.
Qed.

(** The name "ab" on both routes. *)
Lemma invalid_name_issues_no_query_witness :
  (fst (genre_create_post Collation.ascii_ci_eq "n1" (post "g1" "ab" "") library)
     = library
   /\ queries (snd (genre_create_post Collation.ascii_ci_eq "n1"
                      (post "g1" "ab" "") library)) = [])
  /\ (fst (genre_update_post (post "g1" "ab" "") library) = library
      /\ queries (snd (genre_update_post (post "g1" "ab" "") library)) = []).
Proof.
  apply (invalid_name_issues_no_query
           Collation.ascii_ci_eq "n1" (post "g1" "ab" "") library).
  vm_compute. lia.
Defined.

(** ** The unique index is kept *)

Section UniqueIds.

Lemma delete_by_id_ids_NoDup (id : string) (gs : list Genre) :
  List.NoDup (List.map _id gs) ->
  List.NoDup (List.map _id (Store.delete_by_id id gs)).
Proof.
  induction gs as [|g gs IH]; simpl; intros Hnd; [assumption|].
  apply NoDup_cons_iff in Hnd as [Hnotin Hnd].
  destruct (Store.has_id id g); [assumption|]. simpl.
  apply NoDup_cons_iff. split; [|now apply IH].
  intros Hin. apply Hnotin. apply in_map_iff in Hin as [g' [Hid Hg']].
  apply in_map_iff. exists g'. split; [assumption|].
  clear -Hg'. induction gs as [|g0 gs IH]; simpl in *; [contradiction|].
  destruct (Store.has_id id g0); [now right|].
  destruct Hg' as [-> | Hg']; [now left | right; now apply IH].
Qed.

Lemma insert_ids_NoDup (g : Genre) (gs gs' : list Genre) :
  List.NoDup (List.map _id gs) ->
  Store.insert g gs = Some gs' ->
  List.NoDup (List.map _id gs').
Proof.
  unfold Store.insert. intros Hnd.
  destruct (List.existsb (Store.has_id (_id g)) gs) eqn:E; [discriminate|].
  intros [= <-]. rewrite map_app. simpl.
  apply List.NoDup_app; [assumption | repeat constructor; simpl; tauto |].
  intros x Hin [<- | []]. apply in_map_iff in Hin as [g' [Hid Hg']].
  assert (Ht : List.existsb (Store.has_id (_id g)) gs = true).
  { apply existsb_exists. exists g'. split; [assumption|].
    now apply has_id_true. }
  congruence.
Qed.

(** X18. Every handler that writes keeps the identifiers of the store
    distinct: if no two Genres share an identifier before
    [genre_create_post], [genre_update_post] or [genre_delete_post], none do
    afterwards. *)
Lemma handlers_keep_unique_ids
    (collation_eq : string -> string -> bool) (oid : string)
    (req : request) (d : db) :
  unique_ids d ->
  unique_ids (fst (genre_create_post collation_eq oid req d))
  /\ unique_ids (fst (genre_update_post req d))
  /\ unique_ids (fst (genre_delete_post req d)).
Proof.
  unfold unique_ids. intros Hu. repeat split.
  - unfold genre_create_post.
    destruct (body_name_chain req) as [req' [|e errors]]; run_handler;
      [|assumption].
    destruct (Store.findOne_by_name collation_eq (body_name req') (genres d));
      [assumption|].
    destruct (Store.insert (mkGenre oid (body_name req')) (genres d))
      as [gs'|] eqn:E; cbn [fst genres]; [|assumption].
    eapply insert_ids_NoDup; eauto.
  - unfold genre_update_post.
    destruct (body_name_chain req) as [req' [|e errors]]; run_handler;
      [|assumption].
    destruct (Store.findById (params_id req') (genres d)); cbn [fst genres];
      now rewrite update_by_id_ids.
  - unfold genre_delete_post. run_handler.
    destruct (Store.books_in_genre (params_id req) (books d));
      cbn [fst genres length Nat.ltb Nat.leb]; [|assumption].
    now apply delete_by_id_ids_NoDup.
Qed.

End UniqueIds.

(** ** Delete *)

Section Delete.

Variables (req : request) (d : db).

(** The delete form for an identifier that names no Genre: the redirect is
    followed by the render of the confirmation view, with [null] for the
    Genre. *)
Lemma genre_delete_get_absent :
  (forall g, In g (genres d) -> _id g <> params_id req) ->
  genre_delete_get req d =
    (d,
     [Query (QGenreFindById (params_id req));
      Query (QBookFindByGenre (params_id req));
      ResRedirect "/catalog/genres";
      ResRender "genre_delete"
        [("title", VString "Delete genre");
         ("genre", VNull);
         ("genre_books",
          VBooks
            (List.map (Store.populate (genres d))
               (Store.books_in_genre (params_id req) (books d))))]]).
Proof.
  intros Habsent. apply findById_None in Habsent.
  unfold genre_delete_get. run_handler. now rewrite Habsent.
Qed.

(** X20. The delete form for a Genre of the store, identifiers being
    distinct: the store is left as it was and the only answer is the
    confirmation view with that Genre and the Books that reference it, their
    genre references resolved. *)
Lemma genre_delete_get_present (g : Genre) :
  unique_ids d -> In g (genres d) -> _id g = params_id req ->
  genre_delete_get req d =
    (d,
     [Query (QGenreFindById (params_id req));
      Query (QBookFindByGenre (params_id req));
      ResRender "genre_delete"
        [("title", VString "Delete genre");
         ("genre", VGenre g);
         ("genre_books",
          VBooks
            (List.map (Store.populate (genres d))
               (Store.books_in_genre (params_id req) (books d))))]]).
Proof.
  intros Hu Hin Hid.
  unfold genre_delete_get. run_handler.
  now rewrite (findById_unique _ _ g Hu Hin Hid).
Qed.

(** The delete handler, by cases on the Books that reference the
    identifier of the path. *)
Lemma genre_delete_post_blocked :
  Store.books_in_genre (params_id req) (books d) <> [] ->
  genre_delete_post req d =
    (d,
     [Query (QGenreFindById (params_id req));
      Query (QBookFindByGenre (params_id req));
      ResRender "genre_delete"
        [("title", VString "Delete Genre");
         ("genre", genre_or_null (Store.findById (params_id req) (genres d)));
         ("genre_books",
          VBooks
            (List.map (Store.populate (genres d))
               (Store.books_in_genre (params_id req) (books d))))]]).
Proof.
  intros Hbooks. unfold genre_delete_post. run_handler.
  destruct (Store.books_in_genre (params_id req) (books d)); [congruence|].
  reflexivity.
Qed.

Lemma genre_delete_post_free :
  Store.books_in_genre (params_id req) (books d) = [] ->
  genre_delete_post req d =
    (mkDb (Store.delete_by_id (body_genreid req) (genres d)) (books d),
     [Query (QGenreFindById (params_id req));
      Query (QBookFindByGenre (params_id req));
      Query (QGenreFindByIdAndDelete (body_genreid req));
      ResRedirect "/catalog/genres"]).
Proof.
  intros Hbooks. unfold genre_delete_post. run_handler.
  now rewrite Hbooks.
Qed.

(** X19. When the path and the form field name the same identifier and the
    identifiers of the store are distinct: if a Book references it, the
    store is left as it was and the only answer is the confirmation view; if
    no Book references it, no Genre with that identifier is left and the
    only answer is the redirect to the list. *)
Lemma genre_delete_post_same_id :
  params_id req = body_genreid req ->
  unique_ids d ->
  ((exists b, In b (books d) /\ In (body_genreid req) (genre b)) ->
   fst (genre_delete_post req d) = d
   /\ exists l,
        responses (snd (genre_delete_post req d)) =
          [ResRender "genre_delete" l])
  /\ ((forall b, In b (books d) -> ~ In (body_genreid req) (genre b)) ->
      (forall g, In g (genres (fst (genre_delete_post req d))) ->
                 _id g <> body_genreid req)
      /\ responses (snd (genre_delete_post req d)) =
           [ResRedirect "/catalog/genres"]).
Proof.
  intros Hsame Hu. split.
  - intros [b [Hb Hid]]. rewrite genre_delete_post_blocked.
    + split; [reflexivity|]. eexists. reflexivity.
    + intros E. rewrite <- Hsame in Hid.
      assert (Hin : In b (Store.books_in_genre (params_id req) (books d)))
        by now apply books_in_genre_spec.
      rewrite E in Hin. contradiction.
  - intros Hnone. rewrite genre_delete_post_free.
    + split; [|reflexivity]. cbn [fst genres].
      now apply delete_by_id_gone.
    + destruct (Store.books_in_genre (params_id req) (books d))
        as [|b bs] eqn:E; [reflexivity|].
      exfalso.
      assert (Hin : In b (Store.books_in_genre (params_id req) (books d)))
        by (rewrite E; now left).
      apply books_in_genre_spec in Hin as [Hb Hid].
      rewrite Hsame in Hid. now apply (Hnone b).
Qed.

End Delete.

(** C8. [genre_delete_post] looks up the Books that reference the
    identifier of the path; the only delete it can issue is for the
    identifier of the form field [genreid]; when the two identifiers
    differ, the Books that reference the identifier of the form are never
    looked up. When no Book references the identifier of the path, the
    Genre named by the form is the one removed; otherwise the store is left
    as it was. *)
Theorem delete_post_checks_path_deletes_form (req : request) (d : db) :
  In (Query (QBookFindByGenre (params_id req))) (snd (genre_delete_post req d))
  /\ (forall id,
        In (Query (QGenreFindByIdAndDelete id)) (snd (genre_delete_post req d))
        -> id = body_genreid req)
  /\ (params_id req <> body_genreid req ->
      ~ In (Query (QBookFindByGenre (body_genreid req)))
          (snd (genre_delete_post req d)))
  /\ (Store.books_in_genre (params_id req) (books d) = [] ->
      genres (fst (genre_delete_post req d)) =
        Store.delete_by_id (body_genreid req) (genres d)
      /\ In (Query (QGenreFindByIdAndDelete (body_genreid req)))
            (snd (genre_delete_post req d)))
  /\ (Store.books_in_genre (params_id req) (books d) <> [] ->
      fst (genre_delete_post req d) = d).
Proof.
  destruct (Store.books_in_genre (params_id req) (books d)) as [|b bs] eqn:E.
  - rewrite (genre_delete_post_free req d E). cbn [fst snd genres].
    repeat split.
    + simpl. auto.
    + intros id [H | [H | [H | [H | []]]]]; congruence.
    + intros Hne [H | [H | [H | [H | []]]]]; congruence.
    + simpl. auto.
    + congruence.
  - assert (Hne : Store.books_in_genre (params_id req) (books d) <> [])
      by congruence.
    rewrite (genre_delete_post_blocked req d Hne). cbn [fst snd].
    repeat split.
    + simpl. auto.
    + intros id [H | [H | [H | []]]]; congruence.
    + intros Hne' [H | [H | [H | []]]]; congruence.
    + discriminate.
    + discriminate.
Qed.

(** The path names R&B, which no Book references; the form names Fantasy. *)
Lemma delete_post_checks_path_deletes_form_witness :
  ~ In (Query (QBookFindByGenre "g1"))
       (snd (genre_delete_post (post "g2" "" "g1") library))
  /\ genres (fst (genre_delete_post (post "g2" "" "g1") library)) =
       Store.delete_by_id "g1" (genres library).
Proof.
  pose proof (delete_post_checks_path_deletes_form (post "g2" "" "g1") library)
    as [_ [_ [Hnever [Hfree _]]]].
  split.
  - apply Hnever. discriminate.
  - apply Hfree. reflexivity.
Defined.

(** C2, at a failing request. The form names Fantasy, which The Hobbit
    references; the path names R&B, which no Book references. Fantasy is
    removed from the store and the response is the redirect to the list. *)
Theorem delete_post_removes_referenced_genre :
  let req := post "g2" "" "g1" in
  In hobbit (books library)
  /\ In (body_genreid req) (genre hobbit)
  /\ In fantasy (genres library)
  /\ _id fantasy = body_genreid req
  /\ genre_delete_post req library =
       (mkDb [rhythm] [hobbit],
        [Query (QGenreFindById "g2");
         Query (QBookFindByGenre "g2");
         Query (QGenreFindByIdAndDelete "g1");
         ResRedirect "/catalog/genres"]).
Proof.
  simpl. repeat split; auto.
Qed.

(** C6, at a failing request. No Genre of the library has the identifier
    "zz"; the delete form redirects to the list and then renders the
    confirmation view as well. *)
Theorem delete_get_absent_genre_redirects_then_renders :
  let req := post "zz" "" "" in
  Store.findById (params_id req) (genres library) = None
  /\ responses (snd (genre_delete_get req library)) =
       [ResRedirect "/catalog/genres";
        ResRender "genre_delete"
          [("title", VString "Delete genre");
           ("genre", VNull);
           ("genre_books", VBooks [])]].
Proof.
  split; reflexivity.
Qed.

(** * Further properties *)

(** ** The sanitizers *)

Section Sanitizers.

Lemma has_append (c : ascii) (s1 s2 : string) :
  Chars.has c (s1 +:+ s2) = Chars.has c s1 || Chars.has c s2.
Proof.
  induction s1 as [|a s1 IH]; simpl; [reflexivity|].
  now rewrite IH, orb_assoc.
Qed.

(** Where a character can come from after one replacement. *)
Lemma has_replace (x c : ascii) (r s : string) :
  Chars.has x (Validator.replace c r s) =
    (negb (Ascii.eqb x c) && Chars.has x s)
    || (Chars.has c s && Chars.has x r).
Proof.
  induction s as [|a s IH]; simpl.
  - now rewrite andb_false_r.
  - destruct (Ascii.eqb a c) eqn:Eac.
    + apply Ascii.eqb_eq in Eac. subst a.
      rewrite has_append, IH, (Ascii.eqb_sym c x).
      destruct (Ascii.eqb x c), (Chars.has x r), (Chars.has x s),
        (Chars.has c s); reflexivity.
    + simpl. rewrite IH.
      destruct (Ascii.eqb a x) eqn:Eax.
      * apply Ascii.eqb_eq in Eax. subst a. rewrite Eac. reflexivity.
      * reflexivity.
Qed.

Lemma replace_removes (c : ascii) (r s : string) :
  Chars.has c r = false -> Chars.has c (Validator.replace c r s) = false.
Proof.
  intros Hr. now rewrite has_replace, Hr, Ascii.eqb_refl, andb_false_r.
Qed.

Lemma replace_keeps_absent (x c : ascii) (r s : string) :
  Chars.has x r = false -> Chars.has x s = false ->
  Chars.has x (Validator.replace c r s) = false.
Proof.
  intros Hr Hs. now rewrite has_replace, Hr, Hs, !andb_false_r.
Qed.

(** None of the markup characters is left by [escape]. *)
Lemma escape_markup_free (s : string) (c : ascii) :
  Chars.is_markup c = true -> Chars.has c (Validator.escape s) = false.
Proof.
  unfold Chars.is_markup. intros H. apply existsb_exists in H.
  destruct H as [x [Hx E]]. apply Ascii.eqb_eq in E. subst x.
  unfold Validator.escape. simpl in Hx.
  repeat (destruct Hx as [<- | Hx];
    [repeat first [ solve [apply replace_removes; reflexivity]
                  | apply replace_keeps_absent; [reflexivity|] ]|]).
  contradiction.
Qed.

Lemma length_append (s1 s2 : string) :
  String.length (s1 +:+ s2) = String.length s1 + String.length s2.
Proof. induction s1 as [|a s1 IH]; simpl; [reflexivity | now rewrite IH]. Qed.

Lemma replace_length (c : ascii) (r s : string) :
  1 <= String.length r ->
  String.length s <= String.length (Validator.replace c r s).
Proof.
  intros Hr. induction s as [|a s IH]; simpl; [lia|].
  destruct (Ascii.eqb a c); [rewrite length_append | simpl]; lia.
Qed.

(** Escaping never shortens. *)
Lemma escape_length (s : string) :
  String.length s <= String.length (Validator.escape s).
Proof.
  unfold Validator.escape.
  repeat (etransitivity; [|apply replace_length; simpl; lia]).
  reflexivity.
Qed.

Lemma ltrim_all_space (w : string) :
  Chars.all_space w = true -> Validator.ltrim w = EmptyString.
Proof.
  induction w as [|a w IH]; simpl; [reflexivity|].
  intros H. apply andb_true_iff in H as [Ha Hw]. rewrite Ha. auto.
Qed.

Lemma rtrim_all_space (w : string) :
  Chars.all_space w = true -> Validator.rtrim w = EmptyString.
Proof.
  induction w as [|a w IH]; simpl; [reflexivity|].
  intros H. apply andb_true_iff in H as [Ha Hw]. now rewrite (IH Hw), Ha.
Qed.

Lemma ltrim_app_l (w s : string) :
  Chars.all_space w = true -> Validator.ltrim (w +:+ s) = Validator.ltrim s.
Proof.
  induction w as [|a w IH]; simpl; [reflexivity|].
  intros H. apply andb_true_iff in H as [Ha Hw]. rewrite Ha. auto.
Qed.

Lemma rtrim_app_r (s w : string) :
  Chars.all_space w = true -> Validator.rtrim (s +:+ w) = Validator.rtrim s.
Proof.
  intros Hw. induction s as [|a s IH]; simpl.
  - now apply rtrim_all_space.
  - now rewrite IH.
Qed.

Lemma ltrim_app_r (s w : string) :
  Chars.all_space w = true ->
  Validator.ltrim (s +:+ w) =
    if Chars.all_space s then EmptyString else Validator.ltrim s +:+ w.
Proof.
  intros Hw. induction s as [|a s IH]; simpl.
  - now apply ltrim_all_space.
  - destruct (Validator.is_space a); simpl; [assumption | reflexivity].
Qed.

(** White space around a value does not change what [trim] returns. *)
Lemma trim_padding (w1 s w2 : string) :
  Chars.all_space w1 = true -> Chars.all_space w2 = true ->
  Validator.trim (w1 +:+ s +:+ w2) = Validator.trim s.
Proof.
  intros H1 H2. unfold Validator.trim.
  rewrite (ltrim_app_l _ _ H1), (ltrim_app_r _ _ H2).
  destruct (Chars.all_space s) eqn:E.
  - now rewrite (ltrim_all_space _ E).
  - now apply rtrim_app_r.
Qed.

Lemma trim_all_space (s : string) :
  Chars.all_space s = true -> Validator.trim s = EmptyString.
Proof.
  intros H. unfold Validator.trim. now rewrite (ltrim_all_space _ H).
Qed.

End Sanitizers.

(** ** More on the store operations *)

Section StoreMore.

Lemma find_snoc {A} (p : A -> bool) (l : list A) (x : A) :
  List.find p l = None ->
  List.find p (l ++ [x]) = if p x then Some x else None.
Proof.
  induction l as [|a l IH]; simpl; [reflexivity|].
  destruct (p a); [discriminate | exact IH].
Qed.

Lemma find_app_Some {A} (p : A -> bool) (l1 l2 : list A) (x : A) :
  List.find p l1 = Some x -> List.find p (l1 ++ l2) = Some x.
Proof.
  induction l1 as [|a l1 IH]; simpl; [discriminate|].
  destruct (p a); [trivial | exact IH].
Qed.

Lemma findById_update (id nm : string) (gs : list Genre) :
  Store.findById id (Store.update_by_id id nm gs) =
    match Store.findById id gs with
    | Some g => Some (mkGenre (_id g) nm)
    | None => None
    end.
Proof.
  unfold Store.findById.
  induction gs as [|g gs IH]; simpl; [reflexivity|].
  destruct (Store.has_id id g) eqn:E; simpl.
  - unfold Store.has_id in *. simpl. now rewrite E.
  - now rewrite E.
Qed.

Lemma update_by_id_idem (id nm : string) (gs : list Genre) :
  Store.update_by_id id nm (Store.update_by_id id nm gs) =
  Store.update_by_id id nm gs.
Proof.
  induction gs as [|g gs IH]; simpl; [reflexivity|].
  destruct (Store.has_id id g) eqn:E; simpl.
  - unfold Store.has_id in *. simpl. now rewrite E.
  - now rewrite E, IH.
Qed.

Lemma update_by_id_In_inv (id nm : string) (gs : list Genre) (g : Genre) :
  In g (Store.update_by_id id nm gs) ->
  In g gs \/ (_id g = id /\ name g = nm).
Proof.
  induction gs as [|g0 gs IH]; simpl; [tauto|].
  destruct (Store.has_id id g0) eqn:E; simpl.
  - apply has_id_true in E. intros [<- | H]; simpl; tauto.
  - intros [<- | H]; [tauto|]. destruct (IH H); tauto.
Qed.

Lemma delete_by_id_subset (id : string) (gs : list Genre) (g : Genre) :
  In g (Store.delete_by_id id gs) -> In g gs.
Proof.
  induction gs as [|g0 gs IH]; simpl; [tauto|].
  destruct (Store.has_id id g0); simpl; tauto.
Qed.

Lemma delete_by_id_length (id : string) (gs : list Genre) :
  length gs <= S (length (Store.delete_by_id id gs)).
Proof.
  induction gs as [|g0 gs IH]; simpl; [lia|].
  destruct (Store.has_id id g0); simpl; lia.
Qed.

End StoreMore.

(** ** The handlers that only read *)

(** X1. [genre_update_get] leaves the store as it was. When no Genre has
    the requested identifier, its only call is [next] with an error of
    status 404 whose message is "Book not found"; when the lookup finds a
    Genre, its only call renders the form view, titled "Update Genre", with
    that Genre. *)
Theorem update_get_not_found_or_form (req : request) (d : db) :
  fst (genre_update_get req d) = d
  /\ ((forall g, In g (genres d) -> _id g <> params_id req) ->
      responses (snd (genre_update_get req d)) =
        [Next (mkError "Book not found" (Some 404))])
  /\ (forall g,
        unique_ids d -> In g (genres d) -> _id g = params_id req ->
        responses (snd (genre_update_get req d)) =
          [ResRender "genre_form"
             [("title", VString "Update Genre"); ("genre", VGenre g)]]).
Proof.
  unfold genre_update_get. run_handler. repeat split.
  - now destruct (Store.findById (params_id req) (genres d)).
  - intros Habsent. apply findById_None in Habsent. now rewrite Habsent.
  - intros g Hu Hin Hid. now rewrite (findById_unique _ _ g Hu Hin Hid).
Qed.

(** In the library "zz" names no Genre and "g2" names one. *)
Lemma update_get_not_found_or_form_witness :
  responses (snd (genre_update_get (post "zz" "" "") library)) =
    [Next (mkError "Book not found" (Some 404))]
  /\ responses (snd (genre_update_get (post "g2" "" "") library)) =
       [ResRender "genre_form"
          [("title", VString "Update Genre"); ("genre", VGenre rhythm)]].
Proof.
  split.
  - apply (proj1 (proj2
             (update_get_not_found_or_form (post "zz" "" "") library))).
    intros g Hg. simpl in Hg. destruct Hg as [<- | [<- | []]]; discriminate.
  - apply (proj2 (proj2
             (update_get_not_found_or_form (post "g2" "" "") library)) rhythm).
    + unfold unique_ids. simpl.
      repeat constructor; simpl; intuition discriminate.
    + simpl. auto.
    + reflexivity.
Defined.

(** X2. The five handlers of the GET routes leave the whole store, Genres
    and Books, as it was, whatever the request. *)
Theorem get_handlers_leave_store (req : request) (d : db) :
  fst (genre_list req d) = d
  /\ fst (genre_detail req d) = d
  /\ fst (genre_create_get req d) = d
  /\ fst (genre_delete_get req d) = d
  /\ fst (genre_update_get req d) = d.
Proof.
  unfold genre_list, genre_detail, genre_create_get, genre_delete_get,
    genre_update_get.
  run_handler.
  destruct (Store.findById (params_id req) (genres d)); repeat split.
Qed.

(** X3. No handler of the controller changes the Books, whatever the
    request and whatever the outcome. *)
Theorem handlers_never_write_books
    (collation_eq : string -> string -> bool) (oid : string)
    (req : request) (d : db) :
  books (fst (genre_list req d)) = books d
  /\ books (fst (genre_detail req d)) = books d
  /\ books (fst (genre_create_get req d)) = books d
  /\ books (fst (genre_create_post collation_eq oid req d)) = books d
  /\ books (fst (genre_delete_get req d)) = books d
  /\ books (fst (genre_delete_post req d)) = books d
  /\ books (fst (genre_update_get req d)) = books d
  /\ books (fst (genre_update_post req d)) = books d.
Proof.
  unfold genre_list, genre_detail, genre_create_get, genre_create_post,
    genre_delete_get, genre_delete_post, genre_update_get, genre_update_post.
  destruct (body_name_chain req) as [req' [|e errors]]; run_handler;
    destruct (Store.findById (params_id req) (genres d));
    destruct (Store.books_in_genre (params_id req) (books d));
    try destruct (Store.findOne_by_name collation_eq (body_name req')
                    (genres d));
    try destruct (Store.insert (mkGenre oid (body_name req')) (genres d));
    try destruct (Store.findById (params_id req') (genres d));
    repeat split.
Qed.

(** X4. Every handler but [genre_delete_get] makes exactly one call on the
    response or on [next], on every request and every store: none of them
    answers twice and none leaves the request unanswered. *)
Theorem handlers_answer_once
    (collation_eq : string -> string -> bool) (oid : string)
    (req : request) (d : db) :
  length (responses (snd (genre_list req d))) = 1
  /\ length (responses (snd (genre_detail req d))) = 1
  /\ length (responses (snd (genre_create_get req d))) = 1
  /\ length (responses (snd (genre_create_post collation_eq oid req d))) = 1
  /\ length (responses (snd (genre_delete_post req d))) = 1
  /\ length (responses (snd (genre_update_get req d))) = 1
  /\ length (responses (snd (genre_update_post req d))) = 1.
Proof.
  unfold genre_list, genre_detail, genre_create_get, genre_create_post,
    genre_delete_post, genre_update_get, genre_update_post.
  destruct (body_name_chain req) as [req' [|e errors]]; run_handler;
    destruct (Store.findById (params_id req) (genres d));
    destruct (Store.books_in_genre (params_id req) (books d));
    try destruct (Store.findOne_by_name collation_eq (body_name req')
                    (genres d));
    try destruct (Store.insert (mkGenre oid (body_name req')) (genres d));
    try destruct (Store.findById (params_id req') (genres d));
    repeat split.
Qed.

(** ** Create *)

(** X5. What [genre_create_post] can do to the Genres, on any request:
    either they are as they were, or exactly one Genre was added at the end,
    and then the trimmed name had at least 3 characters, the new Genre
    carries the generated identifier, which was not in use, its name is the
    trimmed and escaped name, of at least 3 characters and free of angle
    brackets, quotes, slash, backslash and backquote, and the collation took
    no stored name for equal to it. *)
Theorem create_inserts_only_sanitized
    (collation_eq : string -> string -> bool) (oid : string)
    (req : request) (d : db) :
  let nm := Validator.escape (Validator.trim (body_name req)) in
  genres (fst (genre_create_post collation_eq oid req d)) = genres d
  \/ (genres (fst (genre_create_post collation_eq oid req d)) =
        genres d ++ [mkGenre oid nm]
      /\ 3 <= String.length (Validator.trim (body_name req))
      /\ 3 <= String.length nm
      /\ (forall c, Chars.is_markup c = true -> Chars.has c nm = false)
      /\ ~ In oid (List.map _id (genres d))
      /\ (forall g, In g (genres d) -> collation_eq (name g) nm = false)).
Proof.
  intros nm.
  destruct (Nat.lt_ge_cases (String.length (Validator.trim (body_name req))) 3)
    as [Hlt | Hge].
  - left. unfold genre_create_post. now rewrite (chain_invalid req Hlt).
  - unfold genre_create_post. rewrite (chain_valid req Hge). fold nm.
    run_handler. unfold Store.findOne_by_name.
    destruct (List.find (fun g => collation_eq (name g) nm) (genres d))
      as [g|] eqn:Hfind; [now left|].
    unfold Store.insert. cbn [_id].
    destruct (List.existsb (Store.has_id oid) (genres d)) eqn:Hex;
      [now left|].
    right. cbn [fst genres]. repeat split.
    + assumption.
    + pose proof (escape_length (Validator.trim (body_name req))).
      unfold nm. lia.
    + intros c Hc. now apply escape_markup_free.
    + intros Hin. apply in_map_iff in Hin as [g [Hid Hg]].
      assert (Ht : List.existsb (Store.has_id oid) (genres d) = true).
      { apply existsb_exists. exists g. split; [assumption|].
        now apply has_id_true. }
      congruence.
    + intros g Hg. apply (find_none _ _ Hfind g Hg).
Qed.

(** X6. Surrounding white space is ignored by both POST routes: a name
    padded with white space on either side gives the same store and the same
    log as the name alone. *)
Theorem padding_is_ignored
    (collation_eq : string -> string -> bool) (oid id gid : string)
    (w1 s w2 : string) (d : db) :
  Chars.all_space w1 = true ->
  Chars.all_space w2 = true ->
  genre_create_post collation_eq oid (mkRequest id (w1 +:+ s +:+ w2) gid) d =
    genre_create_post collation_eq oid (mkRequest id s gid) d
  /\ genre_update_post (mkRequest id (w1 +:+ s +:+ w2) gid) d =
       genre_update_post (mkRequest id s gid) d.
Proof.
  intros H1 H2.
  unfold genre_create_post, genre_update_post, body_name_chain.
  cbn [body_name params_id body_genreid].
  now rewrite (trim_padding w1 s w2 H1 H2).
Qed.

(** A tab and blanks around "Poetry". *)
Lemma padding_is_ignored_witness :
  genre_create_post Collation.ascii_ci_eq "n1"
    (mkRequest "" (String (ascii_of_nat 9) " " +:+ "Poetry" +:+ "  ") "")
    library =
  genre_create_post Collation.ascii_ci_eq "n1" (mkRequest "" "Poetry" "")
    library
  /\ genre_update_post
       (mkRequest "" (String (ascii_of_nat 9) " " +:+ "Poetry" +:+ "  ") "")
       library =
     genre_update_post (mkRequest "" "Poetry" "") library.
Proof.
  apply (padding_is_ignored Collation.ascii_ci_eq "n1" "" ""
           (String (ascii_of_nat 9) " ") "Poetry" "  " library);
    reflexivity.
Defined.

(** X7. A name that is empty or made only of white space is refused on both
    POST routes: the form view is rendered with an empty name and the
    validation message, and the store is left as it was. *)
Theorem blank_name_is_refused
    (collation_eq : string -> string -> bool) (oid : string)
    (req : request) (d : db) :
  Chars.all_space (body_name req) = true ->
  genre_create_post collation_eq oid req d =
    (d, [ResRender "genre_form"
           [("title", VString "Create Genre");
            ("genre", VGenre (mkGenre oid ""));
            ("errors", VErrors [mkValidationError "name" name_message])]])
  /\ genre_update_post req d =
       (d, [ResRender "genre_form"
              [("title", VString "Update Genre");
               ("genre", VGenre (mkGenre (params_id req) ""));
               ("errors", VErrors [mkValidationError "name" name_message])]]).
Proof.
  intros H.
  unfold genre_create_post, genre_update_post, body_name_chain.
  rewrite (trim_all_space _ H). split; reflexivity.
Qed.

(** The empty name and a name of three blanks. *)
Lemma blank_name_is_refused_witness :
  fst (genre_create_post Collation.ascii_ci_eq "n1" (post "g1" "" "") library)
    = library
  /\ fst (genre_update_post (post "g1" "   " "") library) = library.
Proof.
  split.
  - pose proof (blank_name_is_refused Collation.ascii_ci_eq "n1"
                  (post "g1" "" "") library eq_refl) as [H _].
    now rewrite H.
  - pose proof (blank_name_is_refused Collation.ascii_ci_eq "n1"
                  (post "g1" "   " "") library eq_refl) as [_ H].
    now rewrite H.
Defined.

(** X8. Create is idempotent. When the trimmed name has at least 3
    characters, the generated identifier is not in use and the collation
    takes the sanitized name for equal to itself, the create redirects; a
    second create of the same name, whatever identifier is generated for
    it, leaves the store as the first one left it and redirects to the same
    target. *)
Theorem create_twice_same_target
    (collation_eq : string -> string -> bool) (oid1 oid2 : string)
    (req : request) (d : db) :
  3 <= String.length (Validator.trim (body_name req)) ->
  ~ In oid1 (List.map _id (genres d)) ->
  let nm := Validator.escape (Validator.trim (body_name req)) in
  collation_eq nm nm = true ->
  let d1 := fst (genre_create_post collation_eq oid1 req d) in
  exists target,
    responses (snd (genre_create_post collation_eq oid1 req d)) =
      [ResRedirect target]
    /\ genre_create_post collation_eq oid2 req d1 =
         (d1, [Query (QGenreFindOneByName nm); ResRedirect target]).
Proof.
  intros Hlen Hfresh nm Hrefl d1. subst d1.
  unfold genre_create_post. rewrite (chain_valid req Hlen). fold nm.
  run_handler. unfold Store.findOne_by_name.
  destruct (List.find (fun g => collation_eq (name g) nm) (genres d))
    as [g|] eqn:Hfind.
  - exists (url g). cbn [fst snd]. split; [reflexivity|]. now rewrite Hfind.
  - unfold Store.insert. cbn [_id].
    rewrite (existsb_has_id_false oid1 (genres d) Hfresh).
    exists (url (mkGenre oid1 nm)). cbn [fst snd genres].
    split; [reflexivity|].
    rewrite (find_snoc _ _ (mkGenre oid1 nm) Hfind). cbn [name].
    now rewrite Hrefl.
Qed.

(** "Poetry" created twice in the library. *)
Lemma create_twice_same_target_witness :
  exists target,
    responses (snd (genre_create_post Collation.ascii_ci_eq "n1"
                      (post "" "Poetry" "") library)) =
      [ResRedirect target]
    /\ genre_create_post Collation.ascii_ci_eq "n2" (post "" "Poetry" "")
         (fst (genre_create_post Collation.ascii_ci_eq "n1"
                 (post "" "Poetry" "") library)) =
       (fst (genre_create_post Collation.ascii_ci_eq "n1"
               (post "" "Poetry" "") library),
        [Query (QGenreFindOneByName "Poetry"); ResRedirect target]).
Proof.
  apply (create_twice_same_target Collation.ascii_ci_eq "n1" "n2"
           (post "" "Poetry" "") library).
  - vm_compute. lia.
  - simpl. intuition discriminate.
  - reflexivity.
Defined.

(** X9. Following the redirect of a create never ends in "not found". When
    the trimmed name has at least 3 characters, the identifiers of the store
    are distinct and the generated one is not in use, the create redirects
    to the detail URL of a Genre, and [genre_detail] for the identifier of
    that Genre, run on the store the create left, renders that Genre. *)
Theorem create_then_detail
    (collation_eq : string -> string -> bool) (oid : string)
    (req : request) (d : db) :
  3 <= String.length (Validator.trim (body_name req)) ->
  unique_ids d ->
  ~ In oid (List.map _id (genres d)) ->
  let d1 := fst (genre_create_post collation_eq oid req d) in
  exists g,
    responses (snd (genre_create_post collation_eq oid req d)) =
      [ResRedirect (url g)]
    /\ forall nm gid,
         responses (snd (genre_detail (mkRequest (_id g) nm gid) d1)) =
           [ResRender "genre_detail"
              [("title", VString "Genre Detail");
               ("genre", VGenre g);
               ("genre_books",
                VBookSummaries
                  (List.map Store.project_title_summary
                     (Store.books_in_genre (_id g) (books d))))]].
Proof.
  intros Hlen Hu Hfresh d1. subst d1.
  unfold genre_create_post. rewrite (chain_valid req Hlen).
  unfold genre_detail. run_handler. unfold Store.findOne_by_name.
  destruct (List.find _ (genres d)) as [g|] eqn:Hfind.
  - exists g. cbn [fst snd]. split; [reflexivity|]. intros nm gid.
    apply find_some in Hfind as [Hin _].
    now rewrite (findById_unique _ _ g Hu Hin eq_refl).
  - unfold Store.insert. cbn [_id].
    rewrite (existsb_has_id_false oid (genres d) Hfresh).
    eexists. cbn [fst snd genres books]. split; [reflexivity|].
    intros nm gid. cbn [_id]. unfold Store.findById.
    rewrite find_snoc.
    + unfold Store.has_id. cbn [_id]. now rewrite String.eqb_refl.
    + apply findById_None. intros g Hg Hid. apply Hfresh.
      rewrite <- Hid. now apply in_map.
Qed.

(** "Sci/Fi" created in the library, then looked up under "n1". *)
Lemma create_then_detail_witness :
  exists g,
    responses (snd (genre_create_post Collation.ascii_ci_eq "n1"
                      (post "" "Sci/Fi" "") library)) =
      [ResRedirect (url g)]
    /\ forall nm gid,
         responses
           (snd (genre_detail (mkRequest (_id g) nm gid)
                   (fst (genre_create_post Collation.ascii_ci_eq "n1"
                           (post "" "Sci/Fi" "") library)))) =
           [ResRender "genre_detail"
              [("title", VString "Genre Detail");
               ("genre", VGenre g);
               ("genre_books",
                VBookSummaries
                  (List.map Store.project_title_summary
                     (Store.books_in_genre (_id g) (books library))))]].
Proof.
  apply (create_then_detail Collation.ascii_ci_eq "n1"
           (post "" "Sci/Fi" "") library).
  - vm_compute. lia.
  - unfold unique_ids. simpl.
    repeat constructor; simpl; intuition discriminate.
  - simpl. intuition discriminate.
Defined.

(** ** Update *)

(** X10. When the trimmed name is shorter than 3 characters,
    [genre_update_post] leaves the store as it was and its only action is to
    render the form view, answered with status 200, with a Genre that
    carries the identifier of the path and the trimmed and escaped name, and
    with the validation message. *)
Theorem update_invalid_name_rerenders_form (req : request) (d : db) :
  String.length (Validator.trim (body_name req)) < 3 ->
  let form :=
    ResRender "genre_form"
      [("title", VString "Update Genre");
       ("genre",
        VGenre (mkGenre (params_id req)
                  (Validator.escape (Validator.trim (body_name req)))));
       ("errors",
        VErrors
          [mkValidationError "name"
             "Genre name must contain at least 3 characters"])] in
  genre_update_post req d = (d, [form]) /\ http_status form = Some 200.
Proof.
  intros H form. split; [|reflexivity].
  unfold genre_update_post. rewrite (chain_invalid req H). reflexivity.
Qed.

(** Renaming Fantasy to "a<". *)
Lemma update_invalid_name_rerenders_form_witness :
  genre_update_post (post "g1" " a< " "") library =
    (library,
     [ResRender "genre_form"
        [("title", VString "Update Genre");
         ("genre", VGenre (mkGenre "g1" "a&lt;"));
         ("errors",
          VErrors
            [mkValidationError "name"
               "Genre name must contain at least 3 characters"])]]).
Proof.
  apply (update_invalid_name_rerenders_form (post "g1" " a< " "") library).
  vm_compute. lia.
Defined.

(** X11. Update is idempotent: running [genre_update_post] a second time
    with the same request, on the store the first run left, leaves that
    store as it is and produces the same log as the first run. *)
Theorem update_twice_same (req : request) (d : db) :
  genre_update_post req (fst (genre_update_post req d)) =
    genre_update_post req d.
Proof.
  unfold genre_update_post.
  destruct (body_name_chain req) as [req' [|e errors]]; run_handler;
    [|reflexivity].
  destruct (Store.findById (params_id req') (genres d)) as [g|] eqn:Hfind;
    cbn [fst snd genres books];
    rewrite findById_update, Hfind, update_by_id_idem; reflexivity.
Qed.

(** X12. On any request, [genre_update_post] keeps the identifiers of the
    store, in their order, and every Genre whose identifier is not that of
    the path is in the store afterwards exactly when it was before. *)
Theorem update_touches_one_document (req : request) (d : db) :
  List.map _id (genres (fst (genre_update_post req d))) =
    List.map _id (genres d)
  /\ forall g,
       _id g <> params_id req ->
       (In g (genres (fst (genre_update_post req d))) <-> In g (genres d)).
Proof.
  unfold genre_update_post, body_name_chain.
  destruct (Validator.isLength 3 (Validator.trim (body_name req)));
    run_handler; [|split; [reflexivity | tauto]].
  destruct (Store.findById (params_id req) (genres d)) as [g0|];
    cbn [fst genres]; (split; [apply update_by_id_ids|]);
    intros g Hne; (split;
      [ intros Hin; apply update_by_id_In_inv in Hin as [Hin | [Hid _]];
        [assumption | contradiction]
      | now apply update_by_id_others ]).
Qed.

(** X13. Every Genre in the store after [genre_update_post] either was there
    before, or carries the identifier of the path and the trimmed and
    escaped name, which then has at least 3 characters and none of the
    markup characters. *)
Theorem update_writes_only_sanitized (req : request) (d : db) (g : Genre) :
  In g (genres (fst (genre_update_post req d))) ->
  In g (genres d)
  \/ (_id g = params_id req
      /\ name g = Validator.escape (Validator.trim (body_name req))
      /\ 3 <= String.length (name g)
      /\ forall c, Chars.is_markup c = true -> Chars.has c (name g) = false).
Proof.
  destruct (Nat.lt_ge_cases (String.length (Validator.trim (body_name req))) 3)
    as [Hlt | Hge]; unfold genre_update_post.
  - rewrite (chain_invalid req Hlt). now left.
  - rewrite (chain_valid req Hge). run_handler.
    destruct (Store.findById (params_id req) (genres d)) as [g0|];
      cbn [fst genres name];
      intros Hin; apply update_by_id_In_inv in Hin as [Hin | [Hid Hnm]];
      try (now left); right; rewrite Hnm;
      (repeat split;
       [ assumption
       | pose proof (escape_length (Validator.trim (body_name req))); lia
       | intros c Hc; now apply escape_markup_free ]).
Qed.

(** Renaming Fantasy to "Sci/Fi": the Genre written is the sanitized one. *)
Lemma update_writes_only_sanitized_witness :
  In (mkGenre "g1" "Sci&#x2F;Fi") (genres library)
  \/ (_id (mkGenre "g1" "Sci&#x2F;Fi") = "g1"
      /\ name (mkGenre "g1" "Sci&#x2F;Fi") = Validator.escape (Validator.trim "Sci/Fi")
      /\ 3 <= String.length (name (mkGenre "g1" "Sci&#x2F;Fi"))
      /\ forall c, Chars.is_markup c = true ->
                   Chars.has c (name (mkGenre "g1" "Sci&#x2F;Fi")) = false).
Proof.
  apply (update_writes_only_sanitized (post "g1" "Sci/Fi" "") library
           (mkGenre "g1" "Sci&#x2F;Fi")).
  simpl. now left.
Defined.

(** X14. After a valid update of a Genre of the store, [genre_detail] for
    the same identifier renders the Genre under that identifier with the
    trimmed and escaped name, and the Books that reference it. *)
Theorem update_then_detail (req : request) (d : db) (g : Genre) :
  3 <= String.length (Validator.trim (body_name req)) ->
  In g (genres d) ->
  _id g = params_id req ->
  responses (snd (genre_detail req (fst (genre_update_post req d)))) =
    [ResRender "genre_detail"
       [("title", VString "Genre Detail");
        ("genre",
         VGenre (mkGenre (params_id req)
                   (Validator.escape (Validator.trim (body_name req)))));
        ("genre_books",
         VBookSummaries
           (List.map Store.project_title_summary
              (Store.books_in_genre (params_id req) (books d))))]].
Proof.
  intros Hlen Hin Hid.
  unfold genre_update_post. rewrite (chain_valid req Hlen).
  unfold genre_detail. run_handler.
  destruct (Store.findById (params_id req) (genres d)) as [g0|] eqn:Hfind.
  - cbn [fst snd genres books name]. rewrite findById_update, Hfind.
    apply findById_Some in Hfind as [_ Hid0]. now rewrite Hid0.
  - exfalso. rewrite findById_None in Hfind. now apply (Hfind g).
Qed.

(** Fantasy renamed to " Sci/Fi ", then shown. *)
Lemma update_then_detail_witness :
  responses
    (snd (genre_detail (post "g1" " Sci/Fi " "")
            (fst (genre_update_post (post "g1" " Sci/Fi " "") library)))) =
    [ResRender "genre_detail"
       [("title", VString "Genre Detail");
        ("genre", VGenre (mkGenre "g1" "Sci&#x2F;Fi"));
        ("genre_books",
         VBookSummaries [mkBookSummary "b1" "The Hobbit" "There and back"])]].
Proof.
  apply (update_then_detail (post "g1" " Sci/Fi " "") library fantasy).
  - vm_compute. lia.
  - simpl. now left.
  - reflexivity.
Defined.

(** ** Delete *)

(** X15. On any request, every Genre left by [genre_delete_post] was in the
    store before, every Genre whose identifier is not the one of the form
    field is kept, and at most one Genre is removed. *)
Theorem delete_removes_at_most_one (req : request) (d : db) :
  (forall g, In g (genres (fst (genre_delete_post req d))) -> In g (genres d))
  /\ (forall g, In g (genres d) -> _id g <> body_genreid req ->
                In g (genres (fst (genre_delete_post req d))))
  /\ length (genres d) <= S (length (genres (fst (genre_delete_post req d)))).
Proof.
  destruct (Store.books_in_genre (params_id req) (books d)) as [|b bs] eqn:E.
  - rewrite (genre_delete_post_free req d E). cbn [fst genres].
    split; [|split].
    + intros g. apply delete_by_id_subset.
    + intros g Hin Hne. now apply delete_by_id_others.
    + apply delete_by_id_length.
  - assert (Hne : Store.books_in_genre (params_id req) (books d) <> [])
      by congruence.
    rewrite (genre_delete_post_blocked req d Hne). cbn [fst].
    split; [|split]; auto.
Qed.

(** X16. When no Book references the identifier of the path and no Genre
    has the identifier of the form field, [genre_delete_post] leaves the
    store as it was and still redirects to the list: deleting what is not
    there is not an error. *)
Theorem delete_absent_is_noop (req : request) (d : db) :
  Store.books_in_genre (params_id req) (books d) = [] ->
  (forall g, In g (genres d) -> _id g <> body_genreid req) ->
  fst (genre_delete_post req d) = d
  /\ responses (snd (genre_delete_post req d)) =
       [ResRedirect "/catalog/genres"].
Proof.
  intros Hbooks Habsent. rewrite (genre_delete_post_free req d Hbooks).
  cbn [fst snd]. rewrite (delete_by_id_absent _ _ Habsent).
  split; [now destruct d | reflexivity].
Qed.

(** Deleting "zz" from the library. *)
Lemma delete_absent_is_noop_witness :
  fst (genre_delete_post (post "zz" "" "zz") library) = library
  /\ responses (snd (genre_delete_post (post "zz" "" "zz") library)) =
       [ResRedirect "/catalog/genres"].
Proof.
  apply (delete_absent_is_noop (post "zz" "" "zz") library).
  - reflexivity.
  - intros g Hg. simpl in Hg. destruct Hg as [<- | [<- | []]]; discriminate.
Defined.

(** X17. After a delete that went through, the Genre is gone for the detail
    page. When the identifiers of the store are distinct and no Book
    references the identifier of the path, then after [genre_delete_post]
    the handler [genre_detail], asked for the identifier of the form field,
    answers with the 404 error. *)
Theorem delete_then_detail_not_found (req : request) (d : db) :
  unique_ids d ->
  Store.books_in_genre (params_id req) (books d) = [] ->
  forall nm gid,
    responses
      (snd (genre_detail (mkRequest (body_genreid req) nm gid)
              (fst (genre_delete_post req d)))) =
      [Next (mkError "Genre not found" (Some 404))].
Proof.
  intros Hu Hbooks nm gid. rewrite (genre_delete_post_free req d Hbooks).
  unfold genre_detail. run_handler. cbn [fst genres].
  assert (Hnone : Store.findById (body_genreid req)
                    (Store.delete_by_id (body_genreid req) (genres d)) = None).
  { apply findById_None. now apply delete_by_id_gone. }
  now rewrite Hnone.
Qed.

(** R&B, which no Book references, is deleted and then asked for. *)
Lemma delete_then_detail_not_found_witness :
  responses
    (snd (genre_detail (mkRequest "g2" "" "")
            (fst (genre_delete_post (post "g2" "" "g2") library)))) =
    [Next (mkError "Genre not found" (Some 404))].
Proof.
  apply (delete_then_detail_not_found (post "g2" "" "g2") library).
  - unfold unique_ids. simpl.
    repeat constructor; simpl; intuition discriminate.
  - reflexivity.
Defined.

(** ** Witnesses for the lemmas on the store invariant and on delete *)

(** The library has distinct identifiers, and keeps them. *)
Lemma handlers_keep_unique_ids_witness :
  unique_ids
    (fst (genre_create_post Collation.ascii_ci_eq "n1"
            (post "g1" "Poetry" "g2") library))
  /\ unique_ids (fst (genre_update_post (post "g1" "Poetry" "g2") library))
  /\ unique_ids (fst (genre_delete_post (post "g1" "Poetry" "g2") library)).
Proof.
  apply (handlers_keep_unique_ids Collation.ascii_ci_eq "n1"
           (post "g1" "Poetry" "g2") library).
  unfold unique_ids. simpl.
  repeat constructor; simpl; intuition discriminate.
Defined.

(** Path and form both name Fantasy, which The Hobbit references; path and
    form both name R&B, which no Book references. *)
Lemma genre_delete_post_same_id_witness :
  (fst (genre_delete_post (post "g1" "" "g1") library) = library
   /\ exists l,
        responses (snd (genre_delete_post (post "g1" "" "g1") library)) =
          [ResRender "genre_delete" l])
  /\ ((forall g,
         In g (genres (fst (genre_delete_post (post "g2" "" "g2") library))) ->
         _id g <> "g2")
      /\ responses (snd (genre_delete_post (post "g2" "" "g2") library)) =
           [ResRedirect "/catalog/genres"]).
Proof.
  assert (Hu : unique_ids library).
  { unfold unique_ids. simpl.
    repeat constructor; simpl; intuition discriminate. }
  split.
  - apply (proj1 (genre_delete_post_same_id (post "g1" "" "g1") library
                    eq_refl Hu)).
    exists hobbit. simpl. auto.
  - apply (proj2 (genre_delete_post_same_id (post "g2" "" "g2") library
                    eq_refl Hu)).
    intros b Hb. simpl in Hb. destruct Hb as [<- | []]. simpl.
    intuition discriminate.
Defined.

(** The delete form for Fantasy shows The Hobbit. *)
Lemma genre_delete_get_present_witness :
  genre_delete_get (post "g1" "" "") library =
    (library,
     [Query (QGenreFindById "g1");
      Query (QBookFindByGenre "g1");
      ResRender "genre_delete"
        [("title", VString "Delete genre");
         ("genre", VGenre fantasy);
         ("genre_books",
          VBooks [mkPopulatedBook "b1" "The Hobbit" "There and back" [fantasy]])]]).
Proof.
  apply (genre_delete_get_present (post "g1" "" "") library fantasy).
  - unfold unique_ids. simpl.
    repeat constructor; simpl; intuition discriminate.
  - simpl. now left.
  - reflexivity.
Defined.
